(** * ddns-updater: the DonDominio and Aliyun providers

    A shallow embedding of the two provider packages

      - [internal/settings/providers/dondominio/dondominio.go]
      - [internal/settings/providers/aliyun/provider.go]

    and the properties of their constructors ([New], [isValid]) and of
    their [Update] methods.

    Layout.  The Go standard library pieces the providers call are modelled
    first ([net], [url], [http], [json]); what the providers import from
    elsewhere and cannot be pinned down from the two source files (the JSON
    decoder behind [json.Unmarshal], [strings.EqualFold], the repository's
    own [utils], [headers] and [constants] packages) is taken as a
    parameter through type classes, with one executable instance used to
    run the code on concrete inputs.  Then come the two providers,
    translated statement by statement, and finally the theorems. *)

From Stdlib Require Import String Ascii List ZArith NArith Lia Bool.
From Stdlib Require Import DecimalString.
From Stdlib.Strings Require Byte.
From stdpp Require Import base gmap strings list.
Import ListNotations.
Open Scope string_scope.
Open Scope list_scope.

(** ** Go slices of bytes and small helpers *)

(** A Go [[]byte] is a list of bytes.  The nil slice and the empty slice
    are both the empty list: the providers only compare against [nil] the
    results of [To4] and [ParseIP], which are nil or non-empty. *)
Abbreviation byte := Byte.byte.

Definition is_nil {A} (s : list A) : bool :=
  match s with [] => true | _ => false end.

Definition is_some {A} (o : option A) : bool :=
  match o with Some _ => true | None => false end.

(** [bytealg.Equal] *)
Fixpoint bytesEqual (a b : list byte) : bool :=
  match a, b with
  | [], [] => true
  | x :: a', y :: b' => Byte.eqb x y && bytesEqual a' b'
  | _, _ => false
  end.

Definition byte_of_N (n : N) : byte :=
  match Byte.of_N (n mod 256) with Some b => b | None => Byte.x00 end.

Definition isDigit (c : ascii) : bool :=
  ((48 <=? N_of_ascii c) && (N_of_ascii c <=? 57))%N.

(** [strconv.Itoa] / the verb [%d] on a Go [int]. *)
Definition itoa (z : Z) : string := NilZero.string_of_int (Z.to_int z).

(** The double quote character, for JSON texts. *)
Definition dquote : ascii := "034"%char.

(** ** Package [net]: the [IP] type *)
Module net.

Definition IP := list byte.

Definition IPv4len : nat := 4.
Definition IPv6len : nat := 16.

Definition v4InV6Prefix : list byte :=
  [Byte.x00; Byte.x00; Byte.x00; Byte.x00; Byte.x00; Byte.x00;
   Byte.x00; Byte.x00; Byte.x00; Byte.x00; Byte.xff; Byte.xff].

(** [func IPv4(a, b, c, d byte) IP]: the 16-byte form of an IPv4 address. *)
Definition IPv4 (a b c d : byte) : IP := v4InV6Prefix ++ [a; b; c; d].

Definition isZeros (p : list byte) : bool := forallb (Byte.eqb Byte.x00) p.

(** [func (ip IP) To4() IP]
<<
    if len(ip) == IPv4len { return ip }
    if len(ip) == IPv6len && isZeros(ip[0:10]) && ip[10] == 0xff && ip[11] == 0xff {
        return ip[12:16]
    }
    return nil
>> *)
Definition To4 (ip : IP) : IP :=
  if Nat.eqb (length ip) IPv4len then ip
  else if Nat.eqb (length ip) IPv6len
          && isZeros (firstn 10 ip)
          && Byte.eqb (nth 10 ip Byte.x00) Byte.xff
          && Byte.eqb (nth 11 ip Byte.x00) Byte.xff
       then skipn 12 ip
       else [].

(** [func (ip IP) Equal(x IP) bool]
<<
    if len(ip) == len(x) { return bytealg.Equal(ip, x) }
    if len(ip) == IPv4len && len(x) == IPv6len {
        return bytealg.Equal(x[0:12], v4InV6Prefix) && bytealg.Equal(ip, x[12:])
    }
    if len(ip) == IPv6len && len(x) == IPv4len {
        return bytealg.Equal(ip[0:12], v4InV6Prefix) && bytealg.Equal(ip[12:], x)
    }
    return false
>> *)
Definition Equal (ip x : IP) : bool :=
  if Nat.eqb (length ip) (length x) then bytesEqual ip x
  else if Nat.eqb (length ip) IPv4len && Nat.eqb (length x) IPv6len then
    bytesEqual (firstn 12 x) v4InV6Prefix && bytesEqual ip (skipn 12 x)
  else if Nat.eqb (length ip) IPv6len && Nat.eqb (length x) IPv4len then
    bytesEqual (firstn 12 ip) v4InV6Prefix && bytesEqual (skipn 12 ip) x
  else false.

(** *** Parsing ([net.ParseIP], through [netip.ParseAddr]) *)

(** The loop of [netip.parseIPv4Fields] over the remaining input.  [start]
    is [i == 0], [prevDot] is [s[i-1] == '.'], [fields] holds the octets
    stored so far ([pos] is its length).
<<
    if s[i] >= '0' && s[i] <= '9' {
        if digLen == 1 && val == 0 { return error (leading zero) }
        val = val*10 + int(s[i]) - '0'
        digLen++
        if val > 255 { return error }
    } else if s[i] == '.' {
        if i == 0 || i == len(s)-1 || s[i-1] == '.' { return error }
        if pos == 3 { return error }
        fields[pos] = uint8(val); pos++; val = 0; digLen = 0
    } else { return error }
    ...
    if pos < 3 { return error }
    fields[3] = uint8(val)
>> *)
Fixpoint parseIPv4Fields_loop (s : string) (start prevDot : bool)
    (val : N) (digLen : nat) (fields : list byte) : option (list byte) :=
  match s with
  | EmptyString =>
      if Nat.ltb (length fields) 3 then None
      else Some (fields ++ [byte_of_N val])
  | String c rest =>
      if isDigit c then
        if Nat.eqb digLen 1 && N.eqb val 0 then None
        else
          let val' := (val * 10 + (N_of_ascii c - 48))%N in
          if (255 <? val')%N then None
          else parseIPv4Fields_loop rest false false val' (S digLen) fields
      else if Ascii.eqb c "." then
        if start || String.eqb rest "" || prevDot then None
        else if Nat.eqb (length fields) 3 then None
        else parseIPv4Fields_loop rest false true 0%N 0 (fields ++ [byte_of_N val])
      else None
  end.

Definition parseIPv4Fields (s : string) : option (list byte) :=
  parseIPv4Fields_loop s true false 0%N 0 [].

Definition hexDigit (c : ascii) : option N :=
  let n := N_of_ascii c in
  if ((48 <=? n) && (n <=? 57))%N then Some (n - 48)%N
  else if ((97 <=? n) && (n <=? 102))%N then Some (n - 97 + 10)%N
  else if ((65 <=? n) && (n <=? 70))%N then Some (n - 65 + 10)%N
  else None.

(** The inner loop of [netip.parseIPv6] reading one group of hex digits:
    [Some (acc, off, rest)], or [None] for a group of more than four digits
    or a value over 16 bits. *)
Fixpoint parseHexGroup (s : string) (acc : N) (off : nat) : option (N * nat * string) :=
  match s with
  | EmptyString => Some (acc, off, s)
  | String c rest =>
      match hexDigit c with
      | None => Some (acc, off, s)
      | Some d =>
          let acc' := (acc * 16 + d)%N in
          if Nat.ltb 3 off then None
          else if (65535 <? acc')%N then None
          else parseHexGroup rest acc' (S off)
      end
  end.

(** The main loop of [netip.parseIPv6] ([for i < 16]); [ip] holds the
    bytes stored so far ([i] is its length) and [ellipsis] the position of
    [::] when one was seen.  Every turn stores at least two bytes, so eight
    turns are enough.  The result is the state at the exit of the loop. *)
Fixpoint parseIPv6_loop (fuel : nat) (s : string) (ip : list byte)
    (ellipsis : option nat) : option (string * list byte * option nat) :=
  match fuel with
  | O => Some (s, ip, ellipsis)
  | S fuel' =>
      if Nat.leb 16 (length ip) then Some (s, ip, ellipsis)
      else
        match parseHexGroup s 0%N 0 with
        | None => None
        | Some (acc, off, rest) =>
            if Nat.eqb off 0 then None
            else
              match rest with
              | String "." _ =>
                  if negb (is_some ellipsis) && negb (Nat.eqb (length ip) 12) then None
                  else if Nat.ltb 16 (length ip + 4) then None
                  else
                    match parseIPv4Fields s with
                    | None => None
                    | Some f => Some (EmptyString, ip ++ f, ellipsis)
                    end
              | EmptyString =>
                  Some (EmptyString,
                        ip ++ [byte_of_N (N.shiftr acc 8); byte_of_N acc], ellipsis)
              | String c rest1 =>
                  let ip' := ip ++ [byte_of_N (N.shiftr acc 8); byte_of_N acc] in
                  if negb (Ascii.eqb c ":") then None
                  else
                    match rest1 with
                    | EmptyString => None
                    | String ":" rest2 =>
                        if is_some ellipsis then None
                        else
                          match rest2 with
                          | EmptyString => Some (EmptyString, ip', Some (length ip'))
                          | _ => parseIPv6_loop fuel' rest2 ip' (Some (length ip'))
                          end
                    | _ => parseIPv6_loop fuel' rest1 ip' ellipsis
                    end
              end
        end
  end.

Fixpoint index_percent (s : string) : option (string * string) :=
  match s with
  | EmptyString => None
  | String c rest =>
      if Ascii.eqb c "%" then Some (EmptyString, rest)
      else match index_percent rest with
           | Some (a, z) => Some (String c a, z)
           | None => None
           end
  end.

(** [netip.parseIPv6]: the sixteen bytes and the zone. *)
Definition parseIPv6 (input : string) : option (list byte * string) :=
  let split :=
    match index_percent input with
    | Some (s, zone) => if String.eqb zone "" then None else Some (s, zone)
    | None => Some (input, "")
    end in
  match split with
  | None => None
  | Some (s, zone) =>
      let lead :=
        match s with
        | String ":" (String ":" s') => (s', Some 0)
        | _ => (s, None)
        end in
      match lead with
      | (EmptyString, Some _) => Some (repeat Byte.x00 16, zone)
      | (s1, ellipsis) =>
          match parseIPv6_loop 8 s1 [] ellipsis with
          | None => None
          | Some (rest, ip, ell) =>
              if negb (String.eqb rest "") then None
              else if Nat.ltb (length ip) 16 then
                match ell with
                | None => None
                | Some e =>
                    Some (firstn e ip ++ repeat Byte.x00 (16 - length ip) ++ skipn e ip,
                          zone)
                end
              else if is_some ell then None
              else Some (ip, zone)
          end
      end
  end.

(** [netip.ParseAddr] followed by [As16]: the scan for the first of
    ['.'], [':'] and ['%'] decides the parser. *)
Fixpoint ParseAddr_scan (whole s : string) : option (list byte * string) :=
  match s with
  | EmptyString => None
  | String c rest =>
      if Ascii.eqb c "." then
        match parseIPv4Fields whole with
        | Some f => Some (v4InV6Prefix ++ f, "")
        | None => None
        end
      else if Ascii.eqb c ":" then parseIPv6 whole
      else if Ascii.eqb c "%" then None
      else ParseAddr_scan whole rest
  end.

(** [func ParseIP(s string) IP]: nil when [s] is no address or has a zone,
    the 16-byte form of the address otherwise. *)
Definition ParseIP (s : string) : IP :=
  match ParseAddr_scan s s with
  | Some (ip, zone) => if String.eqb zone "" then ip else []
  | None => []
  end.

(** *** Printing ([func (ip IP) String() string]) *)

Definition hexChar (n : N) : ascii :=
  if (n <? 10)%N then ascii_of_N (48 + n) else ascii_of_N (97 + n - 10).

(** [hexString]: two lower-case hex digits per byte. *)
Fixpoint hexString (b : list byte) : string :=
  match b with
  | [] => ""
  | x :: r =>
      let n := Byte.to_N x in
      String (hexChar (n / 16)) (String (hexChar (n mod 16)) (hexString r))
  end.

(** [appendHex]: a 16-bit group in lower-case hex without leading zeros. *)
Definition appendHex (n : N) : string :=
  let d3 := (n / 4096)%N in
  let d2 := (n / 256 mod 16)%N in
  let d1 := (n / 16 mod 16)%N in
  let d0 := (n mod 16)%N in
  let s0 := String (hexChar d0) "" in
  if (4096 <=? n)%N then String (hexChar d3) (String (hexChar d2) (String (hexChar d1) s0))
  else if (256 <=? n)%N then String (hexChar d2) (String (hexChar d1) s0)
  else if (16 <=? n)%N then String (hexChar d1) s0
  else s0.

(** The eight 16-bit groups of a 16-byte address ([v6u16]). *)
Fixpoint groups (b : list byte) : list N :=
  match b with
  | hi :: lo :: r => (Byte.to_N hi * 256 + Byte.to_N lo)%N :: groups r
  | _ => []
  end.

Fixpoint zeroRun (g : list N) : nat :=
  match g with
  | 0%N :: r => S (zeroRun r)
  | _ => 0
  end.

(** The first longest run of at least two zero groups, as
    [(zeroStart, zeroEnd)]; [(255, 255)] when there is none. *)
Fixpoint longestZeroRun (g : list N) (i : nat) (best : nat * nat) : nat * nat :=
  match g with
  | [] => best
  | _ :: r =>
      let l := zeroRun g in
      let best' :=
        if Nat.leb 2 l && Nat.ltb (snd best - fst best) l then (i, i + l) else best in
      longestZeroRun r (S i) best'
  end.

(** The printing loop of [netip.Addr.appendTo6]: at [zeroStart] it writes
    [::] and jumps to [zeroEnd], whose group follows without a colon. *)
Fixpoint appendTo6 (g : list N) (i zeroStart zeroEnd : nat) : string :=
  match g with
  | [] => ""
  | x :: r =>
      (if Nat.eqb i zeroStart then "::"
       else if Nat.ltb zeroStart i && Nat.ltb i zeroEnd then ""
       else if Nat.eqb i zeroEnd then appendHex x
       else (if Nat.ltb 0 i then ":" else "") +:+ appendHex x)
      +:+ appendTo6 r (S i) zeroStart zeroEnd
  end.

Definition utoa (n : N) : string := NilZero.string_of_uint (N.to_uint n).

Definition dotted (p4 : list byte) : string :=
  match p4 with
  | [a; b; c; d] =>
      utoa (Byte.to_N a) +:+ "." +:+ utoa (Byte.to_N b) +:+ "."
      +:+ utoa (Byte.to_N c) +:+ "." +:+ utoa (Byte.to_N d)
  | _ => ""
  end.

(** [func (ip IP) String() string] ([String] is the constructor of
    strings here, hence the name).
<<
    if len(ip) == 0 { return "<nil>" }
    if len(ip) != IPv4len && len(ip) != IPv6len { return "?" + hexString(ip) }
    if p4 := ip.To4(); len(p4) == IPv4len { return dotted form }
    return netip.AddrFrom16([16]byte(ip)).String()
>> *)
Definition IP_String (ip : IP) : string :=
  if Nat.eqb (length ip) 0 then "<nil>"
  else if negb (Nat.eqb (length ip) IPv4len) && negb (Nat.eqb (length ip) IPv6len)
  then "?" +:+ hexString ip
  else if Nat.eqb (length (To4 ip)) IPv4len then dotted (To4 ip)
  else
    let g := groups ip in
    let '(zs, ze) := longestZeroRun g 0 (255, 255) in
    appendTo6 g 0 zs ze.

End net.

(** ** Package [net/url]: form values *)
Module url.

(** [url.URL], with the two fields the provider sets. *)
Record URL := { Scheme : string; Host : string }.

(** [func (u *URL) String() string], for a URL made of a scheme and a
    host that needs no escaping. *)
Definition URL_String (u : URL) : string := Scheme u +:+ "://" +:+ Host u.

(** [type Values map[string][]string] *)
Abbreviation Values := (gmap string (list string)).

(** [func (v Values) Set(key, value string) { v[key] = []string{value} }]
    ([Set] is a reserved word here, hence the name). *)
Definition Set_ (v : Values) (key value : string) : Values := <[key := [value]]> v.

Definition upperhex (n : N) : ascii :=
  if (n <? 10)%N then ascii_of_N (48 + n) else ascii_of_N (65 + n - 10).

(** [shouldEscape(c, encodeQueryComponent)]: letters, digits and [-_.~]
    stay; every other byte is escaped. *)
Definition shouldEscape (c : ascii) : bool :=
  let n := N_of_ascii c in
  negb (((97 <=? n) && (n <=? 122)) || ((65 <=? n) && (n <=? 90))
        || ((48 <=? n) && (n <=? 57))
        || (n =? 45) || (n =? 95) || (n =? 46) || (n =? 126))%N.

(** [func QueryEscape(s string) string] *)
Fixpoint QueryEscape (s : string) : string :=
  match s with
  | EmptyString => EmptyString
  | String c rest =>
      if Ascii.eqb c " " then String "+" (QueryEscape rest)
      else if shouldEscape c then
        String "%" (String (upperhex (N_of_ascii c / 16))
                      (String (upperhex (N_of_ascii c mod 16)) (QueryEscape rest)))
      else String c (QueryEscape rest)
  end.

Fixpoint insert_sorted (kv : string * list string) (l : list (string * list string)) :=
  match l with
  | [] => [kv]
  | kv' :: r => if String.leb (fst kv) (fst kv') then kv :: l else kv' :: insert_sorted kv r
  end.

(** The keys in increasing order ([slices.Sort(keys)]), each with its values. *)
Definition sorted_entries (v : Values) : list (string * list string) :=
  foldr insert_sorted [] (map_to_list v).

Definition encode_entry (kv : string * list string) : list string :=
  map (fun x => QueryEscape (fst kv) +:+ "=" +:+ QueryEscape x) (snd kv).

Fixpoint join_amp (l : list string) : string :=
  match l with
  | [] => ""
  | [x] => x
  | x :: r => x +:+ "&" +:+ join_amp r
  end.

(** [func (v Values) Encode() string]: [key=value] pairs, escaped, sorted
    by key and joined with [&]. *)
Definition Encode (v : Values) : string :=
  join_amp (concat (map encode_entry (sorted_entries v))).

End url.

(** ** Errors *)

Module errors.

(** Modelled from the spec: the sentinel errors of the repository's
    [internal/settings/errors] package, which is not among the sources.
    One constructor per sentinel the two providers name; the spec's error
    taxonomy (section 7) lists the kinds.  Their message texts are not
    known and are not used. *)
Inductive Kind :=
| ErrEmptyUsername
| ErrEmptyPassword
| ErrEmptyName
| ErrHostOnlyAt
| ErrEmptyAccessKeyID
| ErrEmptyAccessKeySecret
| ErrBadHTTPStatus
| ErrUnmarshalResponse
| ErrUnsuccessfulResponse
| ErrRecordNotFound
| ErrIPReceivedMalformed
| ErrIPReceivedMismatch.

End errors.

(** A Go [error] value as the providers produce or pass on:
    - [Sentinel k]: the sentinel itself ([return errors.ErrEmptyUsername]);
    - [Errorf k detail]: [fmt.Errorf("%w: <detail>", errors.k, ...)], an
      error that wraps [k] ([errors.Is] finds it) and whose text is the
      sentinel's text, [": "] and [detail];
    - [Foreign msg]: an error made by a library (encoding/json, net/http,
      the Aliyun SDK), known by its text. *)
Inductive error :=
| Sentinel (k : errors.Kind)
| Errorf (k : errors.Kind) (detail : string)
| Foreign (msg : string).

(** [errors.Is(err, errors.k)] *)
Definition Is (err : error) (k : errors.Kind) : Prop :=
  match err with
  | Sentinel k' | Errorf k' _ => k' = k
  | Foreign _ => False
  end.

(** What an [Update] call does: it returns [(newIP, err)] ([err = None] is
    Go's nil error, [newIP = []] the nil IP) or panics. *)
Inductive Outcome :=
| Return (newIP : net.IP) (err : option error)
| Panic (msg : string).

(** ** Packages [context] and [net/http] *)
Module context.

(** A [context.Context] interface value: nil, or some context. *)
Inductive Context := Nil | Live.

End context.

Module http.

(** [type Header map[string][]string] *)
Abbreviation Header_ := (gmap string (list string)).

Record Request := {
  Method : string;
  URL : string;
  Header : Header_;
  Body : string;
}.

(** A request with its header replaced: the effect of calls that only
    write [request.Header]. *)
Definition with_header (request : Request) (h : Header_) : Request :=
  {| Method := Method request; URL := URL request; Header := h; Body := Body request |}.

Record Response := {
  StatusCode : Z;
  RespBody : string;
}.

Definition StatusOK : Z := 200.
Definition MethodPost : string := "POST".

(** [*http.Client]: its method [Do], the transport.  By the contract of
    [Do] a nil error comes with a response; an error is known by its
    text. *)
Definition Client := Request -> Response + string.

(** [http.NewRequestWithContext(ctx, method, url, body)].  It fails on an
    invalid method, a nil context or a URL that does not parse; the method
    and the URL the provider passes are constants that pass, which leaves
    the nil context. *)
Definition NewRequestWithContext (ctx : context.Context) (method url body : string)
  : Request + error :=
  match ctx with
  | context.Nil => inr (Foreign "net/http: nil Context")
  | context.Live =>
      inl {| Method := method; URL := url; Header := ∅; Body := body |}
  end.

End http.

(** ** Package [encoding/json] *)
Module json.

(** [json.Unmarshal(data, &v)] and [json.NewDecoder(r).Decode(&v)] work on
    any target type by reflection.  Here: one instance per target struct,
    giving the filled struct or the text of the decoder's error. *)
Class Unmarshaler (T : Type) := Unmarshal : string -> T + string.
Class Decoder (T : Type) := Decode : string -> T + string.

(** *** An executable decoder

    JSON texts as RFC 8259 has them, and the way encoding/json fills a
    struct: members are taken in order, a key selects the field whose tag
    it equals up to case, unknown keys are skipped, [null] leaves the field
    as it is, a value of the wrong kind is an error.  The input is taken to
    be valid UTF-8; error texts are descriptive and not the library's. *)

#[warnings="-register-all"]
Inductive Value :=
| Null
| Bool (b : bool)
| Number (literal : string)
| Str (s : string)
| Array (elems : list Value)
| Object (members : list (string * Value)).

Definition isSpace (c : ascii) : bool :=
  let n := N_of_ascii c in ((n =? 32) || (n =? 9) || (n =? 10) || (n =? 13))%N.

Fixpoint skip_ws (s : string) : string :=
  match s with
  | String c r => if isSpace c then skip_ws r else s
  | EmptyString => s
  end.

Fixpoint strip_prefix (p s : string) : option string :=
  match p, s with
  | EmptyString, _ => Some s
  | String a p', String c s' => if Ascii.eqb a c then strip_prefix p' s' else None
  | _, _ => None
  end.

(** UTF-8 encoding of a code point (below 0x110000). *)
Definition utf8 (r : N) : string :=
  let ch n := ascii_of_N n in
  (if r <? 128 then String (ch r) ""
   else if r <? 2048 then
     String (ch (192 + r / 64)) (String (ch (128 + r mod 64)) "")
   else if r <? 65536 then
     String (ch (224 + r / 4096))
       (String (ch (128 + r / 64 mod 64)) (String (ch (128 + r mod 64)) ""))
   else
     String (ch (240 + r / 262144))
       (String (ch (128 + r / 4096 mod 64))
          (String (ch (128 + r / 64 mod 64)) (String (ch (128 + r mod 64)) ""))))%N.

(** Four hex digits after [\u]. *)
Definition hex4 (s : string) : option (N * string) :=
  match s with
  | String a (String b (String c (String d r))) =>
      match net.hexDigit a, net.hexDigit b, net.hexDigit c, net.hexDigit d with
      | Some x, Some y, Some z, Some w => Some (((x * 16 + y) * 16 + z) * 16 + w, r)%N
      | _, _, _, _ => None
      end
  | _ => None
  end.

Definition isSurrogate (r : N) : bool := ((55296 <=? r) && (r <? 57344))%N.

(** A [\uXXXX] escape whose digits were just read as [r1]: a high
    surrogate takes the low surrogate escape that follows, a surrogate
    alone becomes U+FFFD. *)
Definition unescape_u (r1 : N) (rest : string) : string * string :=
  if isSurrogate r1 then
    match rest with
    | String "\" (String "u" rest') =>
        match hex4 rest' with
        | Some (r2, rest'') =>
            if ((r1 <? 56320) && (56320 <=? r2) && (r2 <? 57344))%N
            then (utf8 ((r1 - 55296) * 1024 + (r2 - 56320) + 65536)%N, rest'')
            else (utf8 65533%N, rest)
        | None => (utf8 65533%N, rest)
        end
    | _ => (utf8 65533%N, rest)
    end
  else (utf8 r1, rest).

(** The inside of a string literal, after the opening quote: the decoded
    text and what follows the closing quote. *)
Fixpoint parse_string (fuel : nat) (s : string) : option (string * string) :=
  match fuel with
  | O => None
  | S fuel' =>
      match s with
      | EmptyString => None
      | String c r =>
          if Ascii.eqb c dquote then Some (EmptyString, r)
          else if (N_of_ascii c <? 32)%N then None
          else if Ascii.eqb c "\" then
            match r with
            | String e r' =>
                let lit (x : N) :=
                  match parse_string fuel' r' with
                  | Some (t, r'') => Some (String (ascii_of_N x) t, r'')
                  | None => None
                  end in
                if Ascii.eqb e dquote then lit 34%N
                else if Ascii.eqb e "\" then lit 92%N
                else if Ascii.eqb e "/" then lit 47%N
                else if Ascii.eqb e "b" then lit 8%N
                else if Ascii.eqb e "f" then lit 12%N
                else if Ascii.eqb e "n" then lit 10%N
                else if Ascii.eqb e "r" then lit 13%N
                else if Ascii.eqb e "t" then lit 9%N
                else if Ascii.eqb e "u" then
                  match hex4 r' with
                  | Some (r1, r'') =>
                      let '(txt, r3) := unescape_u r1 r'' in
                      match parse_string fuel' r3 with
                      | Some (t, r4) => Some (txt +:+ t, r4)
                      | None => None
                      end
                  | None => None
                  end
                else None
            | EmptyString => None
            end
          else
            match parse_string fuel' r with
            | Some (t, r') => Some (String c t, r')
            | None => None
            end
      end
  end.

Fixpoint take_digits (s : string) : string * string :=
  match s with
  | String c r =>
      if isDigit c then let '(d, r') := take_digits r in (String c d, r') else ("", s)
  | EmptyString => ("", s)
  end.

(** A number literal: an optional minus sign, an integer part without
    leading zero, an optional fraction and an optional exponent. *)
Definition parse_number (s : string) : option (string * string) :=
  let '(sign, s1) :=
    match s with String "-" r => ("-", r) | _ => ("", s) end in
  let '(int, s2) := take_digits s1 in
  let int_ok :=
    match int with
    | EmptyString => false
    | String "0" (String _ _) => false
    | _ => true
    end in
  if negb int_ok then None
  else
    let frac :=
      match s2 with
      | String "." r =>
          let '(d, r') := take_digits r in
          if String.eqb d "" then None else Some ("." +:+ d, r')
      | _ => Some ("", s2)
      end in
    match frac with
    | None => None
    | Some (f, s3) =>
        match s3 with
        | String e r =>
            if Ascii.eqb e "e" || Ascii.eqb e "E" then
              let '(esign, r1) :=
                match r with
                | String "+" r' => ("+", r')
                | String "-" r' => ("-", r')
                | _ => ("", r)
                end in
              let '(d, r2) := take_digits r1 in
              if String.eqb d "" then None
              else Some (sign +:+ int +:+ f +:+ String e esign +:+ d, r2)
            else Some (sign +:+ int +:+ f, s3)
        | EmptyString => Some (sign +:+ int +:+ f, s3)
        end
    end.

(** One JSON value and the text that follows it.  Every call reads at
    least one character before the next, so fuel twice the length of the
    text is never used up. *)
Fixpoint parse_value (fuel : nat) (s : string) : option (Value * string) :=
  match fuel with
  | O => None
  | S fuel' =>
      match skip_ws s with
      | EmptyString => None
      | String c r =>
          if Ascii.eqb c "n" then option_map (pair Null) (strip_prefix "ull" r)
          else if Ascii.eqb c "t" then option_map (pair (Bool true)) (strip_prefix "rue" r)
          else if Ascii.eqb c "f" then option_map (pair (Bool false)) (strip_prefix "alse" r)
          else if Ascii.eqb c dquote then
            match parse_string (S (String.length r)) r with
            | Some (t, r') => Some (Str t, r')
            | None => None
            end
          else if Ascii.eqb c "[" then
            match skip_ws r with
            | String "]" r' => Some (Array [], r')
            | _ => parse_elements fuel' r []
            end
          else if Ascii.eqb c "{" then
            match skip_ws r with
            | String "}" r' => Some (Object [], r')
            | _ => parse_members fuel' r []
            end
          else
            match parse_number (String c r) with
            | Some (lit, r') => Some (Number lit, r')
            | None => None
            end
      end
  end
with parse_elements (fuel : nat) (s : string) (acc : list Value) : option (Value * string) :=
  match fuel with
  | O => None
  | S fuel' =>
      match parse_value fuel' s with
      | None => None
      | Some (v, r) =>
          match skip_ws r with
          | String "," r' => parse_elements fuel' r' (acc ++ [v])
          | String "]" r' => Some (Array (acc ++ [v]), r')
          | _ => None
          end
      end
  end
with parse_members (fuel : nat) (s : string) (acc : list (string * Value))
    : option (Value * string) :=
  match fuel with
  | O => None
  | S fuel' =>
      match skip_ws s with
      | String c r =>
          if negb (Ascii.eqb c dquote) then None
          else
            match parse_string (S (String.length r)) r with
            | None => None
            | Some (k, r1) =>
                match skip_ws r1 with
                | String ":" r2 =>
                    match parse_value fuel' r2 with
                    | None => None
                    | Some (v, r3) =>
                        match skip_ws r3 with
                        | String "," r4 => parse_members fuel' r4 (acc ++ [(k, v)])
                        | String "}" r4 => Some (Object (acc ++ [(k, v)]), r4)
                        | _ => None
                        end
                    end
                | _ => None
                end
            end
      | EmptyString => None
      end
  end.

Definition parse (s : string) : option (Value * string) :=
  parse_value (2 * String.length s + 2) s.

(** [json.Unmarshal]: the whole text is one value. *)
Definition parse_all (s : string) : Value + string :=
  match parse s with
  | Some (v, r) =>
      if String.eqb (skip_ws r) "" then inl v
      else inr "invalid character after top-level value"
  | None => inr "invalid JSON text"
  end.

(** [Decoder.Decode]: the next value of the stream; what follows it stays
    in the stream. *)
Definition parse_next (s : string) : Value + string :=
  match parse s with
  | Some (v, _) => inl v
  | None => inr "invalid JSON text"
  end.

(** Folding of a key as the decoder compares it with a field's name:
    ASCII letters to upper case, and the two letters outside ASCII whose
    case folding is an ASCII letter (U+017F to S, U+212A to K). *)
Fixpoint foldName (s : string) : string :=
  match s with
  | String "197" (String "191" r) => String "S" (foldName r)
  | String "226" (String "132" (String "170" r)) => String "K" (foldName r)
  | String c r =>
      let n := N_of_ascii c in
      String (if ((97 <=? n) && (n <=? 122))%N then ascii_of_N (n - 32) else c) (foldName r)
  | EmptyString => EmptyString
  end.

Definition keyIs (tag key : string) : bool := String.eqb (foldName tag) (foldName key).

(** Filling a struct: [field key] is the setter of the field that [key]
    selects, if any. *)
Fixpoint fill {T} (field : string -> option (Value -> T -> T + string))
    (members : list (string * Value)) (old : T) : T + string :=
  match members with
  | [] => inl old
  | (k, v) :: rest =>
      match field k with
      | None => fill field rest old
      | Some set =>
          match set v old with
          | inl new => fill field rest new
          | inr e => inr e
          end
      end
  end.

Definition into_struct {T} (field : string -> option (Value -> T -> T + string))
    (v : Value) (old : T) : T + string :=
  match v with
  | Null => inl old
  | Object members => fill field members old
  | _ => inr "cannot unmarshal into Go value of type struct"
  end.

Definition into_string (v : Value) (old : string) : string + string :=
  match v with
  | Null => inl old
  | Str s => inl s
  | _ => inr "cannot unmarshal into Go value of type string"
  end.

Definition into_bool (v : Value) (old : bool) : bool + string :=
  match v with
  | Null => inl old
  | Bool b => inl b
  | _ => inr "cannot unmarshal into Go value of type bool"
  end.

Fixpoint digits_value (s : string) (acc : Z) : Z :=
  match s with
  | String c r => digits_value r (acc * 10 + Z.of_N (N_of_ascii c - 48))
  | EmptyString => acc
  end.

(** A Go [int] (64 bits): the literal must be an integer in range. *)
Definition into_int (v : Value) (old : Z) : Z + string :=
  match v with
  | Null => inl old
  | Number lit =>
      let '(neg, body) :=
        match lit with String "-" r => (true, r) | _ => (false, lit) end in
      let '(d, rest) := take_digits body in
      if negb (String.eqb rest "") then inr "cannot unmarshal number into Go value of type int"
      else
        let z := if neg then (- digits_value d 0)%Z else digits_value d 0 in
        if ((-9223372036854775808 <=? z) && (z <=? 9223372036854775807))%Z then inl z
        else inr "cannot unmarshal number into Go value of type int"
  | _ => inr "cannot unmarshal into Go value of type int"
  end.

(** A slice of structs: element [i] is decoded into the slice's element
    [i] when it has one, into a zero element otherwise. *)
Fixpoint into_elems {T} (elem : Value -> T -> T + string) (zero : T)
    (l : list Value) (old : list T) : list T + string :=
  match l with
  | [] => inl []
  | v :: l' =>
      match elem v (hd zero old) with
      | inr e => inr e
      | inl x =>
          match into_elems elem zero l' (tl old) with
          | inl xs => inl (x :: xs)
          | inr e => inr e
          end
      end
  end.

Definition into_slice {T} (elem : Value -> T -> T + string) (zero : T)
    (v : Value) (old : list T) : list T + string :=
  match v with
  | Null => inl []
  | Array l => into_elems elem zero l old
  | _ => inr "cannot unmarshal into Go value of type slice"
  end.

(** A JSON text, written with an apostrophe wherever it has a double
    quote. *)
Fixpoint text (s : string) : string :=
  match s with
  | String c r => String (if Ascii.eqb c "'" then dquote else c) (text r)
  | EmptyString => EmptyString
  end.

End json.

(** ** What the providers import and the sources do not contain *)

Module ipversion.

(** Modelled from the spec: the type [ipversion.IPVersion] of the
    repository's [pkg/publicip/ipversion] package, which is not among the
    sources; it is the "desired IP address family preference" of a
    provider configuration (section 3): either family, IPv4 only or IPv6
    only.  The providers store it and hand it back. *)
Inductive IPVersion := IP4or6 | IP4 | IP6.

End ipversion.

(** The record type names [constants.A] and [constants.AAAA],
    [strings.EqualFold] (Unicode case folding), [utils.BodyToSingleLine]
    and the three setters of package [headers] (each sets header fields of
    the request, so each is a function on the request's header) are
    parameters of the development. *)
Class Externals := {
  constants_A : string;
  constants_AAAA : string;
  strings_EqualFold : string -> string -> bool;
  utils_BodyToSingleLine : string -> string;
  headers_SetUserAgent : http.Header_ -> http.Header_;
  headers_SetContentType : http.Header_ -> string -> http.Header_;
  headers_SetAccept : http.Header_ -> string -> http.Header_;
}.

(** ** Package [dondominio] *)
Module dondominio.

(** The anonymous struct [extraSettings] of [New]. *)
Record extraSettings := {
  Username : string;
  Password : string;
  Name : string;
}.

(** The anonymous struct [responseData] of [Update]. *)
Record GlueRecord := {
  IPv4 : string;
  IPv6 : string;
}.

Record ResponseDataT := {
  GlueRecords : list GlueRecord;
}.

Record responseData := {
  Success : bool;
  ErrorCode : Z;
  ErrorCodeMessage : string;
  ResponseData : ResponseDataT;
}.

Section Provider.
Context {ext : Externals}.
Context {unmarshal_settings : json.Unmarshaler extraSettings}.
Context {decode_response : json.Decoder responseData}.

Record provider := {
  domain : string;
  host : string;
  ipVersion : ipversion.IPVersion;
  username : string;
  password : string;
  name : string;
}.

(** [func (p *provider) isValid() error] *)
Definition isValid (p : provider) : option error :=
  if Nat.eqb (String.length (username p)) 0 then Some (Sentinel errors.ErrEmptyUsername)
  else if Nat.eqb (String.length (password p)) 0 then Some (Sentinel errors.ErrEmptyPassword)
  else if Nat.eqb (String.length (name p)) 0 then Some (Sentinel errors.ErrEmptyName)
  else if negb (String.eqb (host p) "@") then Some (Sentinel errors.ErrHostOnlyAt)
  else None.

(** [func New(data json.RawMessage, domain, host string,
              ipVersion ipversion.IPVersion) (p *provider, err error)] *)
Definition New (data : string) (domain host : string) (ipVersion : ipversion.IPVersion)
  : provider + error :=
  match json.Unmarshal data with
  | inr err => inr (Foreign err)
  | inl extraSettings =>
      let host := if Nat.eqb (String.length host) 0 then "@" (* default *) else host in
      let p := {| domain := domain;
                  host := host;
                  ipVersion := ipVersion;
                  username := Username extraSettings;
                  password := Password extraSettings;
                  name := Name extraSettings |} in
      match isValid p with
      | Some err => inr err
      | None => inl p
      end
  end.

Definition Domain (p : provider) : string := domain p.

Definition Host (p : provider) : string := host p.

Definition IPVersion (p : provider) : ipversion.IPVersion := ipVersion p.

Definition Proxied (p : provider) : bool := false.

(** [func (p *provider) setHeaders(request *http.Request)] *)
Definition setHeaders (request : http.Request) : http.Request :=
  let h := headers_SetUserAgent (http.Header request) in
  let h := headers_SetContentType h "application/x-www-form-urlencoded" in
  let h := headers_SetAccept h "application/json" in
  http.with_header request h.

(** [func (p *provider) Update(ctx context.Context, client *http.Client,
                               ip net.IP) (newIP net.IP, err error)]

    The result is the list of requests handed to [client.Do], in order,
    and what the call returns. *)
Definition Update (p : provider) (ctx : context.Context) (client : http.Client)
    (ip : net.IP) : list http.Request * Outcome :=
  let u := {| url.Scheme := "https"; url.Host := "simple-api.dondominio.net" |} in
  let values : url.Values := ∅ in
  let values := url.Set_ values "apiuser" (username p) in
  let values := url.Set_ values "apipasswd" (password p) in
  let values := url.Set_ values "domain" (domain p) in
  let values := url.Set_ values "name" (name p) in
  let isIPv4 := negb (is_nil (net.To4 ip)) in
  let values :=
    if isIPv4 then url.Set_ values "ipv4" (net.IP_String ip)
    else url.Set_ values "ipv6" (net.IP_String ip) in
  let buffer := url.Encode values in
  match http.NewRequestWithContext ctx http.MethodPost (url.URL_String u) buffer with
  | inr err => ([], Return [] (Some err))
  | inl request =>
      let request := setHeaders request in
      match client request with
      | inr err => ([request], Return [] (Some (Foreign err)))
      | inl response =>
          ([request],
           if negb (Z.eqb (http.StatusCode response) http.StatusOK) then
             Return [] (Some (Errorf errors.ErrBadHTTPStatus
               (itoa (http.StatusCode response) +:+ ": "
                +:+ utils_BodyToSingleLine (http.RespBody response))))
           else
             match json.Decode (http.RespBody response) with
             | inr err => Return [] (Some (Errorf errors.ErrUnmarshalResponse err))
             | inl responseData =>
                 if negb (Success responseData) then
                   Return [] (Some (Errorf errors.ErrUnsuccessfulResponse
                     (ErrorCodeMessage responseData +:+ " (error code "
                      +:+ itoa (ErrorCode responseData) +:+ ")")))
                 else
                   match GlueRecords (ResponseData responseData) with
                   | [] => Panic "runtime error: index out of range [0] with length 0"
                   | glue0 :: _ =>
                       let ipString := IPv4 glue0 in
                       let ipString := if negb isIPv4 then IPv6 glue0 else ipString in
                       let newIP := net.ParseIP ipString in
                       if is_nil newIP then
                         Return [] (Some (Errorf errors.ErrIPReceivedMalformed ipString))
                       else if negb (net.Equal ip newIP) then
                         Return [] (Some (Errorf errors.ErrIPReceivedMismatch
                                            (net.IP_String newIP)))
                       else Return newIP None
                   end
             end)
      end
  end.

End Provider.
End dondominio.

(** ** The Aliyun SDK ([alibaba-cloud-sdk-go/services/alidns]) *)
Module alidns.

(** [alidns.Record], one entry of a record listing. *)
Record DomainRecord := {
  RR : string;
  RecordId : string;
  Type_ : string;
  Value : string;
}.

(** [DescribeDomainRecordsRequest], with the fields the provider sets. *)
Record DescribeDomainRecordsRequest := {
  ListScheme : string;
  DomainName : string;
  RRKeyWord : string;
}.

(** [DescribeDomainRecordsResponse]: [resp.DomainRecords.Record]. *)
Record DescribeDomainRecordsResponse := {
  DomainRecords : list DomainRecord;
}.

(** [UpdateDomainRecordRequest], with the fields the provider sets. *)
Record UpdateDomainRecordRequest := {
  UpdScheme : string;
  UpdValue : string;
  UpdType : string;
  UpdRR : string;
  UpdRecordId : string;
}.

(** [UpdateDomainRecordResponse]: it names the request and the record and
    carries no record value. *)
Record UpdateDomainRecordResponse := {
  RespRequestId : string;
  RespRecordId : string;
}.

(** [*alidns.Client], by its two methods the provider calls; an error is
    known by its text. *)
Record Client := {
  DescribeDomainRecords :
    DescribeDomainRecordsRequest -> DescribeDomainRecordsResponse + string;
  UpdateDomainRecord :
    UpdateDomainRecordRequest -> UpdateDomainRecordResponse + string;
}.

(** [alidns.NewClientWithAccessKey(regionId, accessKeyId, accessKeySecret)]:
    the transport of the Aliyun provider. *)
Definition SDK := string -> string -> string -> Client + string.

(** A call made on the client. *)
Inductive Call :=
| CallDescribe (request : DescribeDomainRecordsRequest)
| CallUpdate (request : UpdateDomainRecordRequest).

End alidns.

(** ** Package [aliyun] *)
Module aliyun.

(** The anonymous struct [extraSettings] of [New]. *)
Record extraSettings := {
  AccessKeyID : string;
  AccessSecret : string;
  Region : string;
}.

Section Provider.
Context {ext : Externals}.
Context {unmarshal_settings : json.Unmarshaler extraSettings}.

Record Provider := {
  domain : string;
  host : string;
  ipVersion : ipversion.IPVersion;
  accessKeyID : string;
  accessSecret : string;
  region : string;
}.

(** [func (p *Provider) isValid() error] *)
Definition isValid (p : Provider) : option error :=
  if String.eqb (accessKeyID p) "" then Some (Sentinel errors.ErrEmptyAccessKeyID)
  else if String.eqb (accessSecret p) "" then Some (Sentinel errors.ErrEmptyAccessKeySecret)
  else None.

(** [p.region = extraSettings.Region] on a [Provider] value. *)
Definition set_region (p : Provider) (r : string) : Provider :=
  {| domain := domain p; host := host p; ipVersion := ipVersion p;
     accessKeyID := accessKeyID p; accessSecret := accessSecret p; region := r |}.

(** [func New(data json.RawMessage, domain, host string,
              ipVersion ipversion.IPVersion) (p *Provider, err error)] *)
Definition New (data : string) (domain host : string) (ipVersion : ipversion.IPVersion)
  : Provider + error :=
  match json.Unmarshal data with
  | inr err => inr (Foreign err)
  | inl extraSettings =>
      let p := {| domain := domain;
                  host := host;
                  ipVersion := ipVersion;
                  accessKeyID := AccessKeyID extraSettings;
                  accessSecret := AccessSecret extraSettings;
                  region := "cn-hangzhou" |} in
      let p := if negb (String.eqb (Region extraSettings) "")
               then set_region p (Region extraSettings) else p in
      match isValid p with
      | Some err => inr err
      | None => inl p
      end
  end.

Definition Domain (p : Provider) : string := domain p.

Definition Host (p : Provider) : string := host p.

Definition IPVersion (p : Provider) : ipversion.IPVersion := ipVersion p.

Definition Proxied (p : Provider) : bool := false.

(** The search loop of [Update]:
<<
    recordID := ""
    for _, record := range resp.DomainRecords.Record {
        if strings.EqualFold(record.RR, p.host) {
            recordID = record.RecordId
            break
        }
    }
>> *)
Fixpoint findRecordID (records : list alidns.DomainRecord) (host : string) : string :=
  match records with
  | [] => ""
  | record :: rest =>
      if strings_EqualFold (alidns.RR record) host then alidns.RecordId record
      else findRecordID rest host
  end.

(** [func (p *Provider) Update(ctx context.Context, _ *http.Client,
                               ip net.IP) (newIP net.IP, err error)]

    [sdk] is [alidns.NewClientWithAccessKey].  The result is the list of
    calls made on the SDK client, in order, and what [Update] returns. *)
Definition Update (sdk : alidns.SDK) (p : Provider) (ctx : context.Context)
    (_ : http.Client) (ip : net.IP) : list alidns.Call * Outcome :=
  let recordType := constants_A in
  let recordType := if is_nil (net.To4 ip) then constants_AAAA else recordType in
  match sdk (region p) (accessKeyID p) (accessSecret p) with
  | inr err => ([], Return [] (Some (Foreign err)))
  | inl client =>
      let listRequest :=
        {| alidns.ListScheme := "https";
           alidns.DomainName := domain p;
           alidns.RRKeyWord := host p |} in
      match alidns.DescribeDomainRecords client listRequest with
      | inr err => ([alidns.CallDescribe listRequest], Return [] (Some (Foreign err)))
      | inl resp =>
          let recordID := findRecordID (alidns.DomainRecords resp) (host p) in
          if String.eqb recordID "" then
            ([alidns.CallDescribe listRequest],
             Return [] (Some (Sentinel errors.ErrRecordNotFound)))
          else
            let request :=
              {| alidns.UpdScheme := "https";
                 alidns.UpdValue := net.IP_String ip;
                 alidns.UpdType := recordType;
                 alidns.UpdRR := host p;
                 alidns.UpdRecordId := recordID |} in
            let err :=
              match alidns.UpdateDomainRecord client request with
              | inl _ => None
              | inr err => Some (Foreign err)
              end in
            ([alidns.CallDescribe listRequest; alidns.CallUpdate request],
             Return ip err)
      end
  end.

End Provider.
End aliyun.

(** ** An executable instance of the parameters

    Used to run the providers on concrete inputs; the general theorems
    below hold for every instance. *)
Module model.

(** Case-insensitive comparison: exact on ASCII texts, where it is
    [strings.EqualFold]. *)
Definition EqualFold (s t : string) : bool :=
  String.eqb (json.foldName s) (json.foldName t).

(** Modelled from the spec: [utils.BodyToSingleLine], the "single-line-
    collapsed body" of section 4.3: the body without its line breaks. *)
Fixpoint BodyToSingleLine (body : string) : string :=
  match body with
  | String c r =>
      if ((N_of_ascii c =? 10) || (N_of_ascii c =? 13))%N then BodyToSingleLine r
      else String c (BodyToSingleLine r)
  | EmptyString => EmptyString
  end.

(** [request.Header.Set(key, value)] *)
Definition SetHeader (key : string) (h : http.Header_) (value : string) : http.Header_ :=
  <[key := [value]]> h.

Definition externals : Externals :=
  {| constants_A := "A";
     constants_AAAA := "AAAA";
     strings_EqualFold := EqualFold;
     utils_BodyToSingleLine := BodyToSingleLine;
     headers_SetUserAgent := fun h => SetHeader "User-Agent" h "DDNS-Updater";
     headers_SetContentType := SetHeader "Content-Type";
     headers_SetAccept := SetHeader "Accept" |}.

(** Setting one field from a JSON value. *)
Definition setter {T F} (into : json.Value -> F -> F + string) (get : T -> F)
    (put : T -> F -> T) : json.Value -> T -> T + string :=
  fun v old =>
    match into v (get old) with
    | inl x => inl (put old x)
    | inr e => inr e
    end.

(** The fields of DonDominio's [extraSettings], by their [json] tags. *)
Definition dondominio_settings_field (key : string)
  : option (json.Value -> dondominio.extraSettings -> dondominio.extraSettings + string) :=
  if json.keyIs "username" key then
    Some (setter json.into_string dondominio.Username (fun o x =>
      {| dondominio.Username := x; dondominio.Password := dondominio.Password o;
         dondominio.Name := dondominio.Name o |}))
  else if json.keyIs "password" key then
    Some (setter json.into_string dondominio.Password (fun o x =>
      {| dondominio.Username := dondominio.Username o; dondominio.Password := x;
         dondominio.Name := dondominio.Name o |}))
  else if json.keyIs "name" key then
    Some (setter json.into_string dondominio.Name (fun o x =>
      {| dondominio.Username := dondominio.Username o;
         dondominio.Password := dondominio.Password o; dondominio.Name := x |}))
  else None.

Definition dondominio_unmarshal : json.Unmarshaler dondominio.extraSettings :=
  fun data =>
    match json.parse_all data with
    | inr e => inr e
    | inl v =>
        json.into_struct dondominio_settings_field v
          {| dondominio.Username := ""; dondominio.Password := ""; dondominio.Name := "" |}
    end.

(** The fields of DonDominio's [responseData], by their [json] tags. *)
Definition glue_field (key : string)
  : option (json.Value -> dondominio.GlueRecord -> dondominio.GlueRecord + string) :=
  if json.keyIs "ipv4" key then
    Some (setter json.into_string dondominio.IPv4 (fun o x =>
      {| dondominio.IPv4 := x; dondominio.IPv6 := dondominio.IPv6 o |}))
  else if json.keyIs "ipv6" key then
    Some (setter json.into_string dondominio.IPv6 (fun o x =>
      {| dondominio.IPv4 := dondominio.IPv4 o; dondominio.IPv6 := x |}))
  else None.

Definition glue_zero : dondominio.GlueRecord :=
  {| dondominio.IPv4 := ""; dondominio.IPv6 := "" |}.

Definition inner_field (key : string)
  : option (json.Value -> dondominio.ResponseDataT -> dondominio.ResponseDataT + string) :=
  if json.keyIs "gluerecords" key then
    Some (setter (json.into_slice (json.into_struct glue_field) glue_zero)
            dondominio.GlueRecords
            (fun _ x => {| dondominio.GlueRecords := x |}))
  else None.

Definition response_field (key : string)
  : option (json.Value -> dondominio.responseData -> dondominio.responseData + string) :=
  if json.keyIs "success" key then
    Some (setter json.into_bool dondominio.Success (fun o x =>
      {| dondominio.Success := x; dondominio.ErrorCode := dondominio.ErrorCode o;
         dondominio.ErrorCodeMessage := dondominio.ErrorCodeMessage o;
         dondominio.ResponseData := dondominio.ResponseData o |}))
  else if json.keyIs "errorCode" key then
    Some (setter json.into_int dondominio.ErrorCode (fun o x =>
      {| dondominio.Success := dondominio.Success o; dondominio.ErrorCode := x;
         dondominio.ErrorCodeMessage := dondominio.ErrorCodeMessage o;
         dondominio.ResponseData := dondominio.ResponseData o |}))
  else if json.keyIs "errorCodeMsg" key then
    Some (setter json.into_string dondominio.ErrorCodeMessage (fun o x =>
      {| dondominio.Success := dondominio.Success o;
         dondominio.ErrorCode := dondominio.ErrorCode o;
         dondominio.ErrorCodeMessage := x;
         dondominio.ResponseData := dondominio.ResponseData o |}))
  else if json.keyIs "responseData" key then
    Some (setter (json.into_struct inner_field) dondominio.ResponseData (fun o x =>
      {| dondominio.Success := dondominio.Success o;
         dondominio.ErrorCode := dondominio.ErrorCode o;
         dondominio.ErrorCodeMessage := dondominio.ErrorCodeMessage o;
         dondominio.ResponseData := x |}))
  else None.

Definition dondominio_decode : json.Decoder dondominio.responseData :=
  fun body =>
    match json.parse_next body with
    | inr e => inr e
    | inl v =>
        json.into_struct response_field v
          {| dondominio.Success := false; dondominio.ErrorCode := 0;
             dondominio.ErrorCodeMessage := "";
             dondominio.ResponseData := {| dondominio.GlueRecords := [] |} |}
    end.

(** The fields of Aliyun's [extraSettings], by their [json] tags. *)
Definition aliyun_settings_field (key : string)
  : option (json.Value -> aliyun.extraSettings -> aliyun.extraSettings + string) :=
  if json.keyIs "access_key_id" key then
    Some (setter json.into_string aliyun.AccessKeyID (fun o x =>
      {| aliyun.AccessKeyID := x; aliyun.AccessSecret := aliyun.AccessSecret o;
         aliyun.Region := aliyun.Region o |}))
  else if json.keyIs "access_secret" key then
    Some (setter json.into_string aliyun.AccessSecret (fun o x =>
      {| aliyun.AccessKeyID := aliyun.AccessKeyID o; aliyun.AccessSecret := x;
         aliyun.Region := aliyun.Region o |}))
  else if json.keyIs "region" key then
    Some (setter json.into_string aliyun.Region (fun o x =>
      {| aliyun.AccessKeyID := aliyun.AccessKeyID o;
         aliyun.AccessSecret := aliyun.AccessSecret o; aliyun.Region := x |}))
  else None.

Definition aliyun_unmarshal : json.Unmarshaler aliyun.extraSettings :=
  fun data =>
    match json.parse_all data with
    | inr e => inr e
    | inl v =>
        json.into_struct aliyun_settings_field v
          {| aliyun.AccessKeyID := ""; aliyun.AccessSecret := ""; aliyun.Region := "" |}
    end.

End model.

(** ** Concrete inputs *)
Module scenario.
Section WithModel.
#[local] Existing Instance model.externals.

(** The DonDominio configuration [{username: u, password: p, name: n}]. *)
Definition dondominio_config : string :=
  json.text "{'username':'u','password':'p','name':'n'}".

(** A DonDominio configuration whose username is empty and whose password
    is a number. *)
Definition dondominio_config_mistyped : string :=
  json.text "{'username':'','password':5,'name':'n'}".

Definition dondominio_provider : dondominio.provider :=
  {| dondominio.domain := "example.com";
     dondominio.host := "@";
     dondominio.ipVersion := ipversion.IP4or6;
     dondominio.username := "u";
     dondominio.password := "p";
     dondominio.name := "n" |}.

(** 203.0.113.5, in its 16-byte and in its 4-byte form. *)
Definition requested : net.IP :=
  net.IPv4 (byte_of_N 203) (byte_of_N 0) (byte_of_N 113) (byte_of_N 5).

Definition requested4 : net.IP :=
  [byte_of_N 203; byte_of_N 0; byte_of_N 113; byte_of_N 5].

(** 2001:db8::5 *)
Definition requested6 : net.IP := net.ParseIP "2001:db8::5".

Definition body_same : string :=
  json.text "{'success':true,'responseData':{'gluerecords':[{'ipv4':'203.0.113.5','ipv6':''}]}}".

(** A successful answer whose first glue record holds 2001:db8::5. *)
Definition body_same6 : string :=
  json.text "{'success':true,'responseData':{'gluerecords':[{'ipv4':'','ipv6':'2001:db8::5'}]}}".

Definition body_other : string :=
  json.text "{'success':true,'responseData':{'gluerecords':[{'ipv4':'203.0.113.9','ipv6':''}]}}".

Definition body_no_records : string :=
  json.text "{'success':true,'responseData':{'gluerecords':[]}}".

Definition body_failure : string :=
  json.text "{'success':false,'errorCode':2001,'errorCodeMsg':'login failed'}".

(** A transport that answers every request with status 200 and [body]. *)
Definition answers (body : string) : http.Client :=
  fun _ => inl {| http.StatusCode := 200; http.RespBody := body |}.

(** The Aliyun configuration with its two keys and no region. *)
Definition aliyun_config : string :=
  json.text "{'access_key_id':'key','access_secret':'secret'}".

Definition aliyun_provider : aliyun.Provider :=
  {| aliyun.domain := "example.com";
     aliyun.host := "www";
     aliyun.ipVersion := ipversion.IP4or6;
     aliyun.accessKeyID := "key";
     aliyun.accessSecret := "secret";
     aliyun.region := "cn-hangzhou" |}.

(** A listing with the record of host [WWW], of type A and value
    203.0.113.9, after a record of another host. *)
Definition listing : alidns.DescribeDomainRecordsResponse :=
  {| alidns.DomainRecords :=
       [ {| alidns.RR := "mail"; alidns.RecordId := "1001";
            alidns.Type_ := "A"; alidns.Value := "203.0.113.7" |};
         {| alidns.RR := "WWW"; alidns.RecordId := "1002";
            alidns.Type_ := "A"; alidns.Value := "203.0.113.9" |} ] |}.

(** An SDK whose listing is [records] and whose update call answers
    [update]. *)
Definition sdk (records : alidns.DescribeDomainRecordsResponse)
    (update : alidns.UpdateDomainRecordRequest ->
              alidns.UpdateDomainRecordResponse + string) : alidns.SDK :=
  fun _ _ _ =>
    inl {| alidns.DescribeDomainRecords := fun _ => inl records;
           alidns.UpdateDomainRecord := update |}.

Definition update_ok (request : alidns.UpdateDomainRecordRequest)
  : alidns.UpdateDomainRecordResponse + string :=
  inl {| alidns.RespRequestId := "0A1B";
         alidns.RespRecordId := alidns.UpdRecordId request |}.

Definition update_fails (_ : alidns.UpdateDomainRecordRequest)
  : alidns.UpdateDomainRecordResponse + string :=
  inr "SDK.ServerError: LastOperationNotFinished".

End WithModel.
End scenario.

(** The providers run with the executable instance. *)
Abbreviation dondominio_New_run :=
  (@dondominio.New model.dondominio_unmarshal).
Abbreviation dondominio_Update_run :=
  (@dondominio.Update model.externals model.dondominio_decode).
Abbreviation aliyun_New_run :=
  (@aliyun.New model.aliyun_unmarshal).
Abbreviation aliyun_Update_run :=
  (@aliyun.Update model.externals).

(** ** Texts *)

(** The number of occurrences of a character in a text. *)
Fixpoint count_char (c : ascii) (s : string) : nat :=
  match s with
  | EmptyString => 0
  | String x r => (if Ascii.eqb c x then 1 else 0) + count_char c r
  end.

(** ** The text of an IPv6 address

    Auxiliary functions for the printed form of sixteen bytes and for the
    steps of its parsing. *)

(** The text of groups printed one after the other with a colon between
    two of them, followed by [tail]. *)
Fixpoint groups_then (gs : list N) (tail : string) : string :=
  match gs with
  | [] => tail
  | x :: r =>
      match r with
      | [] => net.appendHex x +:+ tail
      | _ :: _ => net.appendHex x +:+ String ":" (groups_then r tail)
      end
  end.

(** The bytes of a list of groups. *)
Fixpoint group_bytes (gs : list N) : list byte :=
  match gs with
  | [] => []
  | n :: r => byte_of_N (N.shiftr n 8) :: byte_of_N n :: group_bytes r
  end.

(** The hex digits of a group, most significant first, without leading
    zeros. *)
Definition nibbles (n : N) : list N :=
  let d3 := (n / 4096)%N in
  let d2 := (n / 256 mod 16)%N in
  let d1 := (n / 16 mod 16)%N in
  let d0 := (n mod 16)%N in
  if (4096 <=? n)%N then [d3; d2; d1; d0]
  else if (256 <=? n)%N then [d2; d1; d0]
  else if (16 <=? n)%N then [d1; d0]
  else [d0].

Fixpoint hex_text (ds : list N) : string :=
  match ds with
  | [] => ""
  | d :: r => String (net.hexChar d) (hex_text r)
  end.

Fixpoint nibbles_value (acc : N) (ds : list N) : N :=
  match ds with
  | [] => acc
  | d :: r => nibbles_value (acc * 16 + d) r
  end.

(** What stops the reading of a group: the end of the text or a
    character that is no hex digit. *)
Definition stops (rest : string) : Prop :=
  match rest with
  | EmptyString => True
  | String c _ => net.hexDigit c = None
  end.

(** *** The printed text *)

(** With a run of zero groups the text is the groups before it, a double
    colon and the groups after it; without one, all the groups. *)
Definition printed (g : list N) : string :=
  let '(zs, ze) := net.longestZeroRun g 0 (255, 255) in
  if Nat.eqb zs 255 then groups_then g ""
  else groups_then (firstn zs g) (String ":" (String ":" (groups_then (skipn ze g) ""))).

Definition run_ok (g : list N) : Prop :=
  let '(zs, ze) := net.longestZeroRun g 0 (255, 255) in
  if Nat.eqb zs 255 then True
  else Nat.leb (zs + 2) ze = true /\ Nat.leb ze 8 = true /\
       g = firstn zs g ++ repeat 0%N (ze - zs) ++ skipn ze g.

(** *** From the text back to the bytes *)

(** The end of [netip.parseIPv6] on the state the loop leaves, for a text
    without a zone. *)
Definition finish (r : option (string * list byte * option nat))
    : option (list byte * string) :=
  match r with
  | None => None
  | Some (rest, ip, ell) =>
      if negb (String.eqb rest "") then None
      else if Nat.ltb (length ip) 16 then
        match ell with
        | None => None
        | Some e =>
            Some (firstn e ip ++ repeat Byte.x00 (16 - length ip) ++ skipn e ip, "")
        end
      else if is_some ell then None
      else Some (ip, "")
  end.

(** * Properties *)

(** A branch of [Update] that returns [nil] and an error. *)
Ltac error_return :=
  intros [= <- <-]; left; split; [reflexivity | discriminate].

(** ** Helper lemmas *)

Section Helpers.
Context {ext : Externals}.
Context {dd_settings : json.Unmarshaler dondominio.extraSettings}.
Context {dd_response : json.Decoder dondominio.responseData}.
Context {ali_settings : json.Unmarshaler aliyun.extraSettings}.

Lemma length_zero_eqb (s : string) : Nat.eqb (String.length s) 0 = String.eqb s "".
Proof. destruct s; reflexivity. Qed.

Lemma is_nil_false {A} (l : list A) : l <> [] -> is_nil l = false.
Proof. destruct l; [congruence | reflexivity]. Qed.

(** [dondominio.New] by cases on the decoded settings. *)
Lemma dondominio_New_cases data domain host ipVersion es :
  json.Unmarshal data = inl es ->
  dondominio.New data domain host ipVersion =
    if String.eqb (dondominio.Username es) "" then inr (Sentinel errors.ErrEmptyUsername)
    else if String.eqb (dondominio.Password es) "" then inr (Sentinel errors.ErrEmptyPassword)
    else if String.eqb (dondominio.Name es) "" then inr (Sentinel errors.ErrEmptyName)
    else if String.eqb host "" || String.eqb host "@" then
      inl {| dondominio.domain := domain;
             dondominio.host := "@";
             dondominio.ipVersion := ipVersion;
             dondominio.username := dondominio.Username es;
             dondominio.password := dondominio.Password es;
             dondominio.name := dondominio.Name es |}
    else inr (Sentinel errors.ErrHostOnlyAt).
Proof.
  intros Hd. unfold dondominio.New, dondominio.isValid. rewrite Hd.
  cbn [dondominio.username dondominio.password dondominio.name dondominio.host].
  rewrite !length_zero_eqb.
  destruct (String.eqb (dondominio.Username es) ""); [reflexivity|].
  destruct (String.eqb (dondominio.Password es) ""); [reflexivity|].
  destruct (String.eqb (dondominio.Name es) ""); [reflexivity|].
  destruct (String.eqb host "") eqn:He; cbn [orb].
  - reflexivity.
  - destruct (String.eqb host "@") eqn:Ha; cbn [negb]; [|reflexivity].
    apply String.eqb_eq in Ha. subst host. reflexivity.
Qed.

(** [aliyun.New] by cases on the decoded settings. *)
Lemma aliyun_New_cases data domain host ipVersion es :
  json.Unmarshal data = inl es ->
  aliyun.New data domain host ipVersion =
    if String.eqb (aliyun.AccessKeyID es) "" then inr (Sentinel errors.ErrEmptyAccessKeyID)
    else if String.eqb (aliyun.AccessSecret es) ""
    then inr (Sentinel errors.ErrEmptyAccessKeySecret)
    else
      inl {| aliyun.domain := domain;
             aliyun.host := host;
             aliyun.ipVersion := ipVersion;
             aliyun.accessKeyID := aliyun.AccessKeyID es;
             aliyun.accessSecret := aliyun.AccessSecret es;
             aliyun.region := if String.eqb (aliyun.Region es) "" then "cn-hangzhou"
                              else aliyun.Region es |}.
Proof.
  intros Hd. unfold aliyun.New, aliyun.isValid, aliyun.set_region. rewrite Hd.
  destruct (String.eqb (aliyun.Region es) ""); cbn [negb aliyun.accessKeyID
    aliyun.accessSecret aliyun.domain aliyun.host aliyun.ipVersion];
    destruct (String.eqb (aliyun.AccessKeyID es) ""); try reflexivity;
    destruct (String.eqb (aliyun.AccessSecret es) ""); reflexivity.
Qed.

(** [dondominio.Update] hands a request to the client exactly when the
    context is not nil; the request does not depend on the client, and the
    outcome depends on the client through its answer only. *)
Lemma dondominio_trace (p : dondominio.provider) ctx client ip request :
  fst (dondominio.Update p ctx client ip) = [request] ->
  ctx = context.Live /\
  forall client', dondominio.Update p ctx client' ip =
    ([request],
     match client' request with
     | inr err => Return [] (Some (Foreign err))
     | inl response => snd (dondominio.Update p ctx (fun _ => inl response) ip)
     end).
Proof.
  unfold dondominio.Update. destruct ctx; cbn [http.NewRequestWithContext].
  - discriminate.
  - intros H. split; [reflexivity|]. intros client'.
    destruct (client _) in H; cbn [fst] in H; injection H as <-;
      destruct (client' _); reflexivity.
Qed.

(** What [dondominio.Update] returns once the client has answered with a
    response of status 200 whose body decodes. *)
Lemma dondominio_decoded (p : dondominio.provider) ctx client ip request response rd :
  fst (dondominio.Update p ctx client ip) = [request] ->
  client request = inl response ->
  http.StatusCode response = http.StatusOK ->
  json.Decode (http.RespBody response) = inl rd ->
  snd (dondominio.Update p ctx client ip) =
    if negb (dondominio.Success rd) then
      Return [] (Some (Errorf errors.ErrUnsuccessfulResponse
        (dondominio.ErrorCodeMessage rd +:+ " (error code "
         +:+ itoa (dondominio.ErrorCode rd) +:+ ")")))
    else
      match dondominio.GlueRecords (dondominio.ResponseData rd) with
      | [] => Panic "runtime error: index out of range [0] with length 0"
      | glue0 :: _ =>
          let ipString :=
            if is_nil (net.To4 ip) then dondominio.IPv6 glue0 else dondominio.IPv4 glue0 in
          if is_nil (net.ParseIP ipString) then
            Return [] (Some (Errorf errors.ErrIPReceivedMalformed ipString))
          else if negb (net.Equal ip (net.ParseIP ipString)) then
            Return [] (Some (Errorf errors.ErrIPReceivedMismatch
                               (net.IP_String (net.ParseIP ipString))))
          else Return (net.ParseIP ipString) None
      end.
Proof.
  intros Ht Hc Hs Hd.
  destruct (dondominio_trace _ _ _ _ _ Ht) as [-> Hu].
  rewrite (Hu client), Hc. cbn [snd].
  unfold dondominio.Update. cbn [http.NewRequestWithContext snd].
  rewrite Hs, Hd. change (negb (Z.eqb http.StatusOK http.StatusOK)) with false.
  cbv iota. destruct (dondominio.Success rd); cbn [negb]; [|reflexivity].
  destruct (dondominio.GlueRecords _); [reflexivity|].
  destruct (is_nil (net.To4 ip)); reflexivity.
Qed.

(** The search loop: no match, and a first match. *)
Lemma findRecordID_none records host :
  (forall record, In record records ->
     strings_EqualFold (alidns.RR record) host = false) ->
  aliyun.findRecordID records host = "".
Proof.
  induction records as [| r rest IH]; intros H; cbn [aliyun.findRecordID].
  - reflexivity.
  - rewrite (H r (or_introl eq_refl)). apply IH. intros r' Hin. apply H. now right.
Qed.

Lemma findRecordID_first before record after host :
  (forall r, In r before -> strings_EqualFold (alidns.RR r) host = false) ->
  strings_EqualFold (alidns.RR record) host = true ->
  aliyun.findRecordID (before ++ record :: after) host = alidns.RecordId record.
Proof.
  induction before as [| r rest IH]; intros Hb Hm; cbn [aliyun.findRecordID app].
  - now rewrite Hm.
  - rewrite (Hb r (or_introl eq_refl)). apply IH; [|exact Hm].
    intros r' Hin. apply Hb. now right.
Qed.

(** [aliyun.Update] once the client is made and the listing is in. *)
Lemma aliyun_listed sdk (p : aliyun.Provider) ctx client ip cl resp :
  sdk (aliyun.region p) (aliyun.accessKeyID p) (aliyun.accessSecret p) = inl cl ->
  let listRequest :=
    {| alidns.ListScheme := "https"; alidns.DomainName := aliyun.domain p;
       alidns.RRKeyWord := aliyun.host p |} in
  alidns.DescribeDomainRecords cl listRequest = inl resp ->
  let recordID := aliyun.findRecordID (alidns.DomainRecords resp) (aliyun.host p) in
  aliyun.Update sdk p ctx client ip =
    if String.eqb recordID "" then
      ([alidns.CallDescribe listRequest],
       Return [] (Some (Sentinel errors.ErrRecordNotFound)))
    else
      let request :=
        {| alidns.UpdScheme := "https";
           alidns.UpdValue := net.IP_String ip;
           alidns.UpdType := if is_nil (net.To4 ip) then constants_AAAA else constants_A;
           alidns.UpdRR := aliyun.host p;
           alidns.UpdRecordId := recordID |} in
      ([alidns.CallDescribe listRequest; alidns.CallUpdate request],
       Return ip match alidns.UpdateDomainRecord cl request with
                 | inl _ => None
                 | inr e => Some (Foreign e)
                 end).
Proof.
  intros Hsdk listRequest Hlist recordID. unfold aliyun.Update.
  rewrite Hsdk. fold listRequest. rewrite Hlist. fold recordID.
  destruct (String.eqb recordID ""); reflexivity.
Qed.

End Helpers.

(** ** The properties of the specification *)

Section Mismatch.
Context {ext : Externals} {dd_response : json.Decoder dondominio.responseData}.

(** C1.  DonDominio: when the transport answers with status 200 and a
    body that decodes with [success] set and a first glue record, and the
    address in the field of the requested family parses but is not the
    requested address, [Update] returns no address and an error wrapping
    [ErrIPReceivedMismatch] that carries the reported address.

    Aliyun's transport reports no address for the record: the response of
    the update call holds a request identifier and a record identifier, and
    of the listing, made before the update, [Update] reads [RR] and
    [RecordId] only.  The premise has no instance there, and no confirmed
    address can differ from the requested one: [Update] never returns an
    error wrapping [ErrIPReceivedMismatch], never panics, and an address it
    returns with a nil error is the requested address. *)
Theorem C1_mismatch_is_an_error :
  (forall (p : dondominio.provider) ctx client ip request response rd glue0 rest,
     fst (dondominio.Update p ctx client ip) = [request] ->
     client request = inl response ->
     http.StatusCode response = http.StatusOK ->
     json.Decode (http.RespBody response) = inl rd ->
     dondominio.Success rd = true ->
     dondominio.GlueRecords (dondominio.ResponseData rd) = glue0 :: rest ->
     let reported :=
       if is_nil (net.To4 ip) then dondominio.IPv6 glue0 else dondominio.IPv4 glue0 in
     net.ParseIP reported <> [] ->
     net.Equal ip (net.ParseIP reported) = false ->
     snd (dondominio.Update p ctx client ip) =
       Return [] (Some (Errorf errors.ErrIPReceivedMismatch
                          (net.IP_String (net.ParseIP reported)))))
  /\
  (forall sdk (p : aliyun.Provider) ctx client ip,
     match snd (aliyun.Update sdk p ctx client ip) with
     | Return _ (Some err) => ~ Is err errors.ErrIPReceivedMismatch
     | Return newIP None => newIP = ip
     | Panic _ => False
     end).
Proof.
  split.
  - intros p ctx client ip request response rd glue0 rest Ht Hc Hs Hd Hok Hg reported Hp Hne.
    rewrite (dondominio_decoded _ _ _ _ _ _ _ Ht Hc Hs Hd), Hok, Hg.
    cbn [negb]. fold reported.
    rewrite (is_nil_false _ Hp), Hne. reflexivity.
  - intros sdk p ctx client ip. unfold aliyun.Update.
    destruct (sdk _ _ _) as [cl | e]; cbn [snd Is]; [|tauto].
    destruct (alidns.DescribeDomainRecords cl _) as [resp | e]; cbn [snd Is]; [|tauto].
    destruct (String.eqb _ ""); cbn [snd Is]; [discriminate|].
    destruct (alidns.UpdateDomainRecord cl _); cbn [Is]; tauto.
Qed.

End Mismatch.

(** C1 at the spec's second scenario: the provider reports 203.0.113.9
    for a request of 203.0.113.5. *)
Lemma C1_witness :
  snd (dondominio_Update_run scenario.dondominio_provider context.Live
         (scenario.answers scenario.body_other) scenario.requested)
  = Return [] (Some (Errorf errors.ErrIPReceivedMismatch "203.0.113.9")).
Proof.
  eapply eq_trans.
  - eapply (proj1 (@C1_mismatch_is_an_error model.externals model.dondominio_decode)
              scenario.dondominio_provider context.Live
              (scenario.answers scenario.body_other) scenario.requested).
    + reflexivity.
    + reflexivity.
    + reflexivity.
    + vm_compute. reflexivity.
    + reflexivity.
    + reflexivity.
    + vm_compute. discriminate.
    + vm_compute. reflexivity.
  - vm_compute. reflexivity.
Defined.

(** C2 fails on Aliyun: when the update call fails, [Update] returns the
    requested address together with the error. *)
Theorem C2_aliyun_returns_address_with_error :
  scenario.requested <> [] /\
  snd (aliyun_Update_run (scenario.sdk scenario.listing scenario.update_fails)
         scenario.aliyun_provider context.Live (scenario.answers "") scenario.requested)
  = Return scenario.requested
      (Some (Foreign "SDK.ServerError: LastOperationNotFinished")).
Proof. split; [vm_compute; discriminate | vm_compute; reflexivity]. Qed.

Section Confirmation.
Context {ext : Externals} {dd_response : json.Decoder dondominio.responseData}.

Lemma dondominio_confirms (p : dondominio.provider) ctx client ip request response rd
    glue0 rest :
  fst (dondominio.Update p ctx client ip) = [request] ->
  client request = inl response ->
  http.StatusCode response = http.StatusOK ->
  json.Decode (http.RespBody response) = inl rd ->
  dondominio.Success rd = true ->
  dondominio.GlueRecords (dondominio.ResponseData rd) = glue0 :: rest ->
  let reported :=
    if is_nil (net.To4 ip) then dondominio.IPv6 glue0 else dondominio.IPv4 glue0 in
  net.ParseIP reported <> [] ->
  net.Equal ip (net.ParseIP reported) = true ->
  snd (dondominio.Update p ctx client ip) = Return (net.ParseIP reported) None.
Proof.
  intros Ht Hc Hs Hd Hok Hg reported Hp Heq.
  rewrite (dondominio_decoded _ _ _ _ _ _ _ Ht Hc Hs Hd), Hok, Hg.
  cbn [negb]. fold reported.
  rewrite (is_nil_false _ Hp), Heq. reflexivity.
Qed.

Lemma aliyun_confirms sdk (p : aliyun.Provider) ctx client ip cl resp upd :
  sdk (aliyun.region p) (aliyun.accessKeyID p) (aliyun.accessSecret p) = inl cl ->
  alidns.DescribeDomainRecords cl
    {| alidns.ListScheme := "https"; alidns.DomainName := aliyun.domain p;
       alidns.RRKeyWord := aliyun.host p |} = inl resp ->
  let recordID := aliyun.findRecordID (alidns.DomainRecords resp) (aliyun.host p) in
  recordID <> "" ->
  alidns.UpdateDomainRecord cl
    {| alidns.UpdScheme := "https";
       alidns.UpdValue := net.IP_String ip;
       alidns.UpdType := if is_nil (net.To4 ip) then constants_AAAA else constants_A;
       alidns.UpdRR := aliyun.host p;
       alidns.UpdRecordId := recordID |} = inl upd ->
  snd (aliyun.Update sdk p ctx client ip) = Return ip None.
Proof.
  intros Hsdk Hlist recordID Hid Hupd.
  rewrite (aliyun_listed sdk p ctx client ip cl resp Hsdk Hlist). fold recordID.
  apply String.eqb_neq in Hid. rewrite Hid. cbv zeta. cbn [snd]. rewrite Hupd. reflexivity.
Qed.

End Confirmation.

(** C3.  DonDominio: when the transport answers with status 200 and a body
    that decodes with [success] set and a first glue record whose address,
    in the field of the requested family, parses and equals the requested
    address, [Update] returns that address and a nil error.  Aliyun: when
    the listing holds a record for the host and the update call succeeds,
    [Update] returns the requested address and a nil error.  The spec's
    scenario: the configuration [{username: u, password: p, name: n}] with
    host [@] is accepted, and for the requested 203.0.113.5 (in either
    form) and the response body with [ipv4] 203.0.113.5, [Update] returns
    203.0.113.5 and a nil error. *)
Theorem C3_equal_address_is_confirmed :
  (forall (ext : Externals) (dd_response : json.Decoder dondominio.responseData)
          (p : dondominio.provider) ctx client ip request response rd glue0 rest,
     fst (dondominio.Update p ctx client ip) = [request] ->
     client request = inl response ->
     http.StatusCode response = http.StatusOK ->
     json.Decode (http.RespBody response) = inl rd ->
     dondominio.Success rd = true ->
     dondominio.GlueRecords (dondominio.ResponseData rd) = glue0 :: rest ->
     let reported :=
       if is_nil (net.To4 ip) then dondominio.IPv6 glue0 else dondominio.IPv4 glue0 in
     net.ParseIP reported <> [] ->
     net.Equal ip (net.ParseIP reported) = true ->
     snd (dondominio.Update p ctx client ip) = Return (net.ParseIP reported) None)
  /\
  (forall (ext : Externals) sdk (p : aliyun.Provider) ctx client ip cl resp upd,
     sdk (aliyun.region p) (aliyun.accessKeyID p) (aliyun.accessSecret p) = inl cl ->
     alidns.DescribeDomainRecords cl
       {| alidns.ListScheme := "https"; alidns.DomainName := aliyun.domain p;
          alidns.RRKeyWord := aliyun.host p |} = inl resp ->
     let recordID := aliyun.findRecordID (alidns.DomainRecords resp) (aliyun.host p) in
     recordID <> "" ->
     alidns.UpdateDomainRecord cl
       {| alidns.UpdScheme := "https";
          alidns.UpdValue := net.IP_String ip;
          alidns.UpdType := if is_nil (net.To4 ip) then constants_AAAA else constants_A;
          alidns.UpdRR := aliyun.host p;
          alidns.UpdRecordId := recordID |} = inl upd ->
     snd (aliyun.Update sdk p ctx client ip) = Return ip None)
  /\
  (forall domain ipVersion,
     exists p,
       dondominio_New_run scenario.dondominio_config domain "@" ipVersion = inl p /\
       snd (dondominio_Update_run p context.Live (scenario.answers scenario.body_same)
              scenario.requested) = Return scenario.requested None /\
       snd (dondominio_Update_run p context.Live (scenario.answers scenario.body_same)
              scenario.requested4) = Return scenario.requested None).
Proof.
  split; [|split].
  - intros ext dd_response. apply dondominio_confirms.
  - intros ext. apply aliyun_confirms.
  - intros domain ipVersion. eexists. split; [reflexivity|].
    split; vm_compute; reflexivity.
Qed.

(** C3 on the spec's first scenario, and on Aliyun for an IPv6 request. *)
Lemma C3_witness :
  snd (dondominio_Update_run scenario.dondominio_provider context.Live
         (scenario.answers scenario.body_same) scenario.requested)
  = Return scenario.requested None
  /\
  snd (aliyun_Update_run (scenario.sdk scenario.listing scenario.update_ok)
         scenario.aliyun_provider context.Live (scenario.answers "") scenario.requested6)
  = Return scenario.requested6 None.
Proof.
  split.
  - refine (proj1 C3_equal_address_is_confirmed model.externals model.dondominio_decode
              scenario.dondominio_provider context.Live
              (scenario.answers scenario.body_same) scenario.requested
              _ _
              {| dondominio.Success := true; dondominio.ErrorCode := 0;
                 dondominio.ErrorCodeMessage := "";
                 dondominio.ResponseData :=
                   {| dondominio.GlueRecords :=
                        [ {| dondominio.IPv4 := "203.0.113.5"; dondominio.IPv6 := "" |} ] |} |}
              {| dondominio.IPv4 := "203.0.113.5"; dondominio.IPv6 := "" |} []
              eq_refl eq_refl eq_refl _ eq_refl eq_refl _ _).
    + vm_compute. reflexivity.
    + vm_compute. discriminate.
    + vm_compute. reflexivity.
  - eapply (proj1 (proj2 C3_equal_address_is_confirmed) model.externals
              (scenario.sdk scenario.listing scenario.update_ok)).
    + reflexivity.
    + reflexivity.
    + vm_compute. discriminate.
    + reflexivity.
Defined.

Section Family.
Context {ext : Externals} {dd_response : json.Decoder dondominio.responseData}.

(** C4.  The family of the request follows from [ip.To4()] alone.
    DonDominio: on a context that is not nil [Update] hands exactly one
    request to the client, and the body of every request it hands over is
    the encoding of the four credential parameters and of exactly one
    address parameter, [ipv4] when [ip.To4()] is not nil and [ipv6]
    otherwise; the other one is absent.  Aliyun: once the client is made,
    the listing is in and a record identifier is found, [Update] makes
    the listing call and one update call, and every update call it makes
    has type [constants.A] when [ip.To4()] is not nil and
    [constants.AAAA] otherwise, with the text of the address as value. *)
Theorem C4_family_follows_To4 :
  (forall (p : dondominio.provider) client ip,
     let credentials : url.Values :=
       url.Set_ (url.Set_ (url.Set_ (url.Set_ ∅
         "apiuser" (dondominio.username p))
         "apipasswd" (dondominio.password p))
         "domain" (dondominio.domain p))
         "name" (dondominio.name p) in
     let address := net.IP_String ip in
     let values : url.Values :=
       if is_nil (net.To4 ip) then url.Set_ credentials "ipv6" address
       else url.Set_ credentials "ipv4" address in
     (exists request,
        fst (dondominio.Update p context.Live client ip) = [request] /\
        http.Body request = url.Encode values) /\
     (forall ctx request,
        In request (fst (dondominio.Update p ctx client ip)) ->
        http.Body request = url.Encode values) /\
     (if is_nil (net.To4 ip)
      then values !! "ipv6" = Some [address] /\ values !! "ipv4" = None
      else values !! "ipv4" = Some [address] /\ values !! "ipv6" = None))
  /\
  (forall sdk (p : aliyun.Provider) ctx client ip,
     let recordType := if is_nil (net.To4 ip) then constants_AAAA else constants_A in
     let listRequest :=
       {| alidns.ListScheme := "https"; alidns.DomainName := aliyun.domain p;
          alidns.RRKeyWord := aliyun.host p |} in
     (forall cl resp,
        sdk (aliyun.region p) (aliyun.accessKeyID p) (aliyun.accessSecret p) = inl cl ->
        alidns.DescribeDomainRecords cl listRequest = inl resp ->
        aliyun.findRecordID (alidns.DomainRecords resp) (aliyun.host p) <> "" ->
        exists request,
          fst (aliyun.Update sdk p ctx client ip)
          = [alidns.CallDescribe listRequest; alidns.CallUpdate request] /\
          alidns.UpdValue request = net.IP_String ip /\
          alidns.UpdType request = recordType) /\
     (forall request,
        In (alidns.CallUpdate request) (fst (aliyun.Update sdk p ctx client ip)) ->
        alidns.UpdValue request = net.IP_String ip /\
        alidns.UpdType request = recordType)).
Proof.
  split.
  - intros p client ip credentials address values.
    assert (Hupd : forall ctx,
              fst (dondominio.Update p ctx client ip)
              = match ctx with
                | context.Nil => []
                | context.Live =>
                    [dondominio.setHeaders
                       {| http.Method := http.MethodPost;
                          http.URL := url.URL_String
                            {| url.Scheme := "https";
                               url.Host := "simple-api.dondominio.net" |};
                          http.Header := ∅;
                          http.Body := url.Encode values |}]
                end).
    { intros ctx. unfold dondominio.Update, values, credentials, address.
      destruct ctx; cbn [http.NewRequestWithContext fst]; [reflexivity|].
      destruct (is_nil (net.To4 ip)); cbn [negb]; destruct (client _); reflexivity. }
    split; [|split].
    + eexists. split; [apply (Hupd context.Live)|]. reflexivity.
    + intros ctx request Hin. rewrite Hupd in Hin.
      destruct ctx; cbn [In] in Hin; [destruct Hin|].
      destruct Hin as [<- | []]. reflexivity.
    + unfold values. destruct (is_nil (net.To4 ip)).
      * split; [apply lookup_insert_eq|].
        unfold credentials, url.Set_.
        rewrite !lookup_insert_ne by discriminate. apply lookup_empty.
      * split; [apply lookup_insert_eq|].
        unfold credentials, url.Set_.
        rewrite !lookup_insert_ne by discriminate. apply lookup_empty.
  - intros sdk p ctx client ip recordType listRequest. split.
    + intros cl resp Hsdk Hlist Hid.
      rewrite (aliyun_listed sdk p ctx client ip cl resp Hsdk Hlist).
      apply String.eqb_neq in Hid. rewrite Hid. cbv zeta.
      eexists. split; [reflexivity|]. split; reflexivity.
    + intros request. unfold aliyun.Update.
      destruct (sdk _ _ _) as [cl | e]; cbn [fst In]; [|tauto].
      destruct (alidns.DescribeDomainRecords cl _) as [resp | e]; cbn [fst In].
      2:{ intros [H | []]. discriminate. }
      destruct (String.eqb _ ""); cbn [fst In].
      { intros [H | []]. discriminate. }
      intros [H | [H | []]]; [discriminate|].
      injection H as <-. cbn [alidns.UpdValue alidns.UpdType]. split; reflexivity.
Qed.

End Family.

(** C4 on 2001:db8::5 and on 203.0.113.5 in its 4-byte form: the body of
    the one request DonDominio sends, and the update call Aliyun makes for
    the record of the configured host. *)
Lemma C4_witness :
  (exists request,
     fst (dondominio_Update_run scenario.dondominio_provider context.Live
            (scenario.answers scenario.body_same) scenario.requested6) = [request] /\
     http.Body request
     = "apipasswd=p&apiuser=u&domain=example.com&ipv6=2001%3Adb8%3A%3A5&name=n") /\
  (exists request,
     fst (dondominio_Update_run scenario.dondominio_provider context.Live
            (scenario.answers scenario.body_same) scenario.requested4) = [request] /\
     http.Body request
     = "apipasswd=p&apiuser=u&domain=example.com&ipv4=203.0.113.5&name=n") /\
  (exists request,
     fst (aliyun_Update_run (scenario.sdk scenario.listing scenario.update_ok)
            scenario.aliyun_provider context.Live (scenario.answers "")
            scenario.requested4)
     = [alidns.CallDescribe
          {| alidns.ListScheme := "https"; alidns.DomainName := "example.com";
             alidns.RRKeyWord := "www" |};
        alidns.CallUpdate request] /\
     alidns.UpdValue request = "203.0.113.5" /\
     alidns.UpdType request = "A") /\
  (exists request,
     fst (aliyun_Update_run (scenario.sdk scenario.listing scenario.update_ok)
            scenario.aliyun_provider context.Live (scenario.answers "")
            scenario.requested6)
     = [alidns.CallDescribe
          {| alidns.ListScheme := "https"; alidns.DomainName := "example.com";
             alidns.RRKeyWord := "www" |};
        alidns.CallUpdate request] /\
     alidns.UpdValue request = "2001:db8::5" /\
     alidns.UpdType request = "AAAA").
Proof.
  split; [|split; [|split]].
  - destruct (proj1 (proj1 (@C4_family_follows_To4 model.externals
                model.dondominio_decode)
              scenario.dondominio_provider
              (scenario.answers scenario.body_same) scenario.requested6))
      as [request [Ht Hb]].
    exists request. split; [exact Ht|]. rewrite Hb. vm_compute. reflexivity.
  - destruct (proj1 (proj1 (@C4_family_follows_To4 model.externals
                model.dondominio_decode)
              scenario.dondominio_provider
              (scenario.answers scenario.body_same) scenario.requested4))
      as [request [Ht Hb]].
    exists request. split; [exact Ht|]. rewrite Hb. vm_compute. reflexivity.
  - destruct (proj1 (proj2 (@C4_family_follows_To4 model.externals
                model.dondominio_decode)
              (scenario.sdk scenario.listing scenario.update_ok)
              scenario.aliyun_provider context.Live (scenario.answers "")
              scenario.requested4) _ scenario.listing eq_refl eq_refl)
      as [request [Ht [Hv Hty]]].
    + vm_compute. discriminate.
    + exists request. split; [exact Ht|]. split; [rewrite Hv | rewrite Hty];
        vm_compute; reflexivity.
  - destruct (proj1 (proj2 (@C4_family_follows_To4 model.externals
                model.dondominio_decode)
              (scenario.sdk scenario.listing scenario.update_ok)
              scenario.aliyun_provider context.Live (scenario.answers "")
              scenario.requested6) _ scenario.listing eq_refl eq_refl)
      as [request [Ht [Hv Hty]]].
    + vm_compute. discriminate.
    + exists request. split; [exact Ht|]. split; [rewrite Hv | rewrite Hty];
        vm_compute; reflexivity.
Defined.

Section Validation.
Context {dd_settings : json.Unmarshaler dondominio.extraSettings}.
Context {ali_settings : json.Unmarshaler aliyun.extraSettings}.

(** C5 (as amended).  For a raw configuration that [json.Unmarshal]
    decodes, [New] reports the first empty credential field in declaration
    order, each by its own sentinel; DonDominio's host rule is reported
    only when the three fields are present, and the provider is built only
    when no rule is violated.  For a raw configuration that does not
    decode, [New] returns the decoder's error, whatever its fields hold.
    [New] returns a provider only for a configuration that decodes and
    violates no rule: in every other case there is no provider for
    [Update], the one function that is handed a transport, to run on, and
    [New] itself is handed none. *)
Theorem C5_first_empty_field_is_reported :
  (forall data domain host ipVersion es,
     json.Unmarshal data = inl es ->
     let u := dondominio.Username es in
     let pw := dondominio.Password es in
     let n := dondominio.Name es in
     let result := dondominio.New data domain host ipVersion in
     (u = "" -> result = inr (Sentinel errors.ErrEmptyUsername)) /\
     (u <> "" -> pw = "" -> result = inr (Sentinel errors.ErrEmptyPassword)) /\
     (u <> "" -> pw <> "" -> n = "" -> result = inr (Sentinel errors.ErrEmptyName)) /\
     (u <> "" -> pw <> "" -> n <> "" -> host <> "" -> host <> "@" ->
        result = inr (Sentinel errors.ErrHostOnlyAt)) /\
     (u <> "" -> pw <> "" -> n <> "" -> host = "" \/ host = "@" ->
        result = inl {| dondominio.domain := domain;
                        dondominio.host := "@";
                        dondominio.ipVersion := ipVersion;
                        dondominio.username := u;
                        dondominio.password := pw;
                        dondominio.name := n |}))
  /\
  (forall data domain host ipVersion es,
     json.Unmarshal data = inl es ->
     let k := aliyun.AccessKeyID es in
     let sec := aliyun.AccessSecret es in
     let result := aliyun.New data domain host ipVersion in
     (k = "" -> result = inr (Sentinel errors.ErrEmptyAccessKeyID)) /\
     (k <> "" -> sec = "" -> result = inr (Sentinel errors.ErrEmptyAccessKeySecret)) /\
     (k <> "" -> sec <> "" -> exists p, result = inl p))
  /\
  errors.ErrEmptyUsername <> errors.ErrEmptyPassword /\
  errors.ErrEmptyUsername <> errors.ErrEmptyName /\
  errors.ErrEmptyPassword <> errors.ErrEmptyName /\
  errors.ErrEmptyAccessKeyID <> errors.ErrEmptyAccessKeySecret
  /\
  (forall data domain host ipVersion e,
     json.Unmarshal (T := dondominio.extraSettings) data = inr e ->
     dondominio.New data domain host ipVersion = inr (Foreign e))
  /\
  (forall data domain host ipVersion e,
     json.Unmarshal (T := aliyun.extraSettings) data = inr e ->
     aliyun.New data domain host ipVersion = inr (Foreign e))
  /\
  (forall data domain host ipVersion p,
     dondominio.New data domain host ipVersion = inl p ->
     exists es,
       json.Unmarshal data = inl es /\
       dondominio.Username es <> "" /\ dondominio.Password es <> "" /\
       dondominio.Name es <> "" /\ (host = "" \/ host = "@"))
  /\
  (forall data domain host ipVersion p,
     aliyun.New data domain host ipVersion = inl p ->
     exists es,
       json.Unmarshal data = inl es /\
       aliyun.AccessKeyID es <> "" /\ aliyun.AccessSecret es <> "").
Proof.
  split; [|split]; [| |repeat split; try discriminate].
  - intros data domain host ipVersion es Hd u pw n result.
    unfold result. rewrite (dondominio_New_cases _ _ _ _ _ Hd). fold u pw n.
    repeat split.
    + intros ->. reflexivity.
    + intros Hu ->. apply String.eqb_neq in Hu. rewrite Hu. reflexivity.
    + intros Hu Hp ->. apply String.eqb_neq in Hu, Hp. rewrite Hu, Hp. reflexivity.
    + intros Hu Hp Hn He Ha. apply String.eqb_neq in Hu, Hp, Hn, He, Ha.
      rewrite Hu, Hp, Hn, He, Ha. reflexivity.
    + intros Hu Hp Hn Hh. apply String.eqb_neq in Hu, Hp, Hn. rewrite Hu, Hp, Hn.
      destruct Hh as [-> | ->]; reflexivity.
  - intros data domain host ipVersion es Hd k sec result.
    unfold result. rewrite (aliyun_New_cases _ _ _ _ _ Hd). fold k sec.
    repeat split.
    + intros ->. reflexivity.
    + intros Hk ->. apply String.eqb_neq in Hk. rewrite Hk. reflexivity.
    + intros Hk Hs. apply String.eqb_neq in Hk, Hs. rewrite Hk, Hs. eexists. reflexivity.
  - intros data domain host ipVersion e Hd. unfold dondominio.New. now rewrite Hd.
  - intros data domain host ipVersion e Hd. unfold aliyun.New. now rewrite Hd.
  - intros data domain host ipVersion p.
    destruct (json.Unmarshal (T := dondominio.extraSettings) data) as [es | e] eqn:Hd.
    2:{ unfold dondominio.New. rewrite Hd. discriminate. }
    rewrite (dondominio_New_cases _ _ _ _ _ Hd).
    destruct (String.eqb (dondominio.Username es) "") eqn:Hu; [discriminate|].
    destruct (String.eqb (dondominio.Password es) "") eqn:Hp; [discriminate|].
    destruct (String.eqb (dondominio.Name es) "") eqn:Hn; [discriminate|].
    destruct (String.eqb host "" || String.eqb host "@") eqn:Hh; [|discriminate].
    intros _. exists es. apply String.eqb_neq in Hu, Hp, Hn.
    repeat split; try assumption.
    apply orb_prop in Hh as [Hh | Hh]; apply String.eqb_eq in Hh; [now left | now right].
  - intros data domain host ipVersion p.
    destruct (json.Unmarshal (T := aliyun.extraSettings) data) as [es | e] eqn:Hd.
    2:{ unfold aliyun.New. rewrite Hd. discriminate. }
    rewrite (aliyun_New_cases _ _ _ _ _ Hd).
    destruct (String.eqb (aliyun.AccessKeyID es) "") eqn:Hk; [discriminate|].
    destruct (String.eqb (aliyun.AccessSecret es) "") eqn:Hs; [discriminate|].
    intros _. exists es. apply String.eqb_neq in Hk, Hs. repeat split; assumption.
Qed.

End Validation.

(** C5 on a DonDominio configuration whose password and name are empty
    and whose host is not [@]: the password is what is reported; on an
    Aliyun configuration whose access secret is empty; and on a DonDominio
    configuration that does not decode. *)
Lemma C5_witness :
  dondominio_New_run (json.text "{'username':'u','password':'','name':''}")
    "example.com" "www" ipversion.IP4
  = inr (Sentinel errors.ErrEmptyPassword) /\
  aliyun_New_run (json.text "{'access_key_id':'key','access_secret':''}")
    "example.com" "www" ipversion.IP4
  = inr (Sentinel errors.ErrEmptyAccessKeySecret) /\
  exists e,
    dondominio_New_run scenario.dondominio_config_mistyped "example.com" "@"
      ipversion.IP4or6
    = inr (Foreign e).
Proof.
  destruct (@C5_first_empty_field_is_reported
              model.dondominio_unmarshal model.aliyun_unmarshal)
    as (Hdd & Hali & _ & _ & _ & _ & Hdec & _).
  split; [|split].
  - refine (proj1 (proj2 (Hdd
              (json.text "{'username':'u','password':'','name':''}")
              "example.com" "www" ipversion.IP4
              {| dondominio.Username := "u"; dondominio.Password := "";
                 dondominio.Name := "" |} _)) _ _).
    + vm_compute. reflexivity.
    + discriminate.
    + reflexivity.
  - refine (proj1 (proj2 (Hali
              (json.text "{'access_key_id':'key','access_secret':''}")
              "example.com" "www" ipversion.IP4
              {| aliyun.AccessKeyID := "key"; aliyun.AccessSecret := "";
                 aliyun.Region := "" |} _)) _ _).
    + vm_compute. reflexivity.
    + discriminate.
    + reflexivity.
  - eexists.
    refine (Hdec scenario.dondominio_config_mistyped "example.com" "@"
              ipversion.IP4or6 _ _).
    vm_compute. reflexivity.
Defined.

(** C5 as stated fails on a raw configuration that does not decode: the
    username of [{"username":"","password":5,"name":"n"}] is empty, but
    the number given as password stops [json.Unmarshal], and [New]
    returns the decoder's error, not [ErrEmptyUsername]. *)
Lemma C5_mistyped_field_hides_the_empty_one :
  json.parse_all scenario.dondominio_config_mistyped
  = inl (json.Object [("username", json.Str ""); ("password", json.Number "5");
                      ("name", json.Str "n")]) /\
  (exists e,
     model.dondominio_unmarshal scenario.dondominio_config_mistyped = inr e /\
     dondominio_New_run scenario.dondominio_config_mistyped "example.com" "@"
       ipversion.IP4or6 = inr (Foreign e)) /\
  dondominio_New_run scenario.dondominio_config_mistyped "example.com" "@"
    ipversion.IP4or6 <> inr (Sentinel errors.ErrEmptyUsername).
Proof.
  split; [vm_compute; reflexivity|]. split.
  - eexists. split; vm_compute; reflexivity.
  - vm_compute. discriminate.
Qed.

Section Lookup.
Context {ext : Externals}.

(** C6.  Aliyun's [Update], once the listing is in.  If no record of the
    listing has an [RR] that [strings.EqualFold] matches with the
    configured host, [Update] returns [ErrRecordNotFound] and the listing
    is the only call made.  If some record matches, the identifier of the
    first one that does is the one every update call carries; the update
    call is made (after the listing, and nothing else) whenever that
    identifier is not the empty string. *)
Theorem C6_lookup_then_update sdk (p : aliyun.Provider) ctx client ip cl resp :
  sdk (aliyun.region p) (aliyun.accessKeyID p) (aliyun.accessSecret p) = inl cl ->
  let listRequest :=
    {| alidns.ListScheme := "https"; alidns.DomainName := aliyun.domain p;
       alidns.RRKeyWord := aliyun.host p |} in
  alidns.DescribeDomainRecords cl listRequest = inl resp ->
  ((forall record, In record (alidns.DomainRecords resp) ->
      strings_EqualFold (alidns.RR record) (aliyun.host p) = false) ->
   aliyun.Update sdk p ctx client ip =
     ([alidns.CallDescribe listRequest],
      Return [] (Some (Sentinel errors.ErrRecordNotFound))))
  /\
  (forall before record after,
     alidns.DomainRecords resp = before ++ record :: after ->
     (forall r, In r before -> strings_EqualFold (alidns.RR r) (aliyun.host p) = false) ->
     strings_EqualFold (alidns.RR record) (aliyun.host p) = true ->
     (forall request,
        In (alidns.CallUpdate request) (fst (aliyun.Update sdk p ctx client ip)) ->
        alidns.UpdRecordId request = alidns.RecordId record) /\
     (alidns.RecordId record <> "" ->
      exists request,
        fst (aliyun.Update sdk p ctx client ip)
        = [alidns.CallDescribe listRequest; alidns.CallUpdate request] /\
        alidns.UpdRecordId request = alidns.RecordId record /\
        alidns.UpdRR request = aliyun.host p)).
Proof.
  intros Hsdk listRequest Hlist. split.
  - intros Hnone.
    rewrite (aliyun_listed sdk p ctx client ip cl resp Hsdk Hlist).
    rewrite (findRecordID_none _ _ Hnone). reflexivity.
  - intros before record after Hrecords Hbefore Hmatch.
    rewrite (aliyun_listed sdk p ctx client ip cl resp Hsdk Hlist).
    rewrite Hrecords, (findRecordID_first _ _ _ _ Hbefore Hmatch).
    destruct (String.eqb (alidns.RecordId record) "") eqn:Hid; cbv zeta; cbn [fst In].
    + split.
      * intros request [H | []]. discriminate.
      * intros Hne. apply String.eqb_eq in Hid. contradiction.
    + split.
      * intros request [H | [H | []]]; [discriminate|]. injection H as <-. reflexivity.
      * intros _. eexists. split; [reflexivity|]. split; reflexivity.
Qed.

End Lookup.

(** C6 on a listing whose second record is the one of host [WWW], for the
    configured host [www]: the update call names record 1002. *)
Lemma C6_witness :
  exists request,
    fst (aliyun_Update_run (scenario.sdk scenario.listing scenario.update_ok)
           scenario.aliyun_provider context.Live (scenario.answers "") scenario.requested)
    = [alidns.CallDescribe
         {| alidns.ListScheme := "https"; alidns.DomainName := "example.com";
            alidns.RRKeyWord := "www" |};
       alidns.CallUpdate request] /\
    alidns.UpdRecordId request = "1002" /\
    alidns.UpdRR request = "www".
Proof.
  refine (proj2 (proj2 (@C6_lookup_then_update model.externals
            (scenario.sdk scenario.listing scenario.update_ok)
            scenario.aliyun_provider context.Live (scenario.answers "")
            scenario.requested _ scenario.listing eq_refl eq_refl)
          [ {| alidns.RR := "mail"; alidns.RecordId := "1001";
               alidns.Type_ := "A"; alidns.Value := "203.0.113.7" |} ]
          {| alidns.RR := "WWW"; alidns.RecordId := "1002";
             alidns.Type_ := "A"; alidns.Value := "203.0.113.9" |}
          [] eq_refl _ _) _).
  - intros r [<- | []]. vm_compute. reflexivity.
  - vm_compute. reflexivity.
  - discriminate.
Defined.

Section Interpretation.
Context {ext : Externals} {dd_response : json.Decoder dondominio.responseData}.

(** C7.  DonDominio, for a response of status 200.  If the body decodes
    and [success] is false, [Update] returns no address and an error that
    wraps [ErrUnsuccessfulResponse] and carries the provider's message and
    error code.  If the body does not decode, [Update] returns no address
    and an error that wraps [ErrUnmarshalResponse], another sentinel, and
    carries the decoder's error. *)
Theorem C7_failure_flag_and_decode_failure (p : dondominio.provider) ctx client ip
    request response :
  fst (dondominio.Update p ctx client ip) = [request] ->
  client request = inl response ->
  http.StatusCode response = http.StatusOK ->
  (forall rd,
     json.Decode (http.RespBody response) = inl rd ->
     dondominio.Success rd = false ->
     snd (dondominio.Update p ctx client ip) =
       Return [] (Some (Errorf errors.ErrUnsuccessfulResponse
         (dondominio.ErrorCodeMessage rd +:+ " (error code "
          +:+ itoa (dondominio.ErrorCode rd) +:+ ")"))))
  /\
  (forall err,
     json.Decode (http.RespBody response) = inr err ->
     snd (dondominio.Update p ctx client ip) =
       Return [] (Some (Errorf errors.ErrUnmarshalResponse err)))
  /\
  errors.ErrUnsuccessfulResponse <> errors.ErrUnmarshalResponse.
Proof.
  intros Ht Hc Hs. split; [|split].
  - intros rd Hd Hf.
    rewrite (dondominio_decoded _ _ _ _ _ _ _ Ht Hc Hs Hd), Hf. reflexivity.
  - intros err Hd.
    destruct (dondominio_trace _ _ _ _ _ Ht) as [-> Hu].
    rewrite (Hu client), Hc. cbn [snd].
    unfold dondominio.Update. cbn [http.NewRequestWithContext snd].
    rewrite Hs, Hd. reflexivity.
  - discriminate.
Qed.

End Interpretation.

(** C7 on the body [{success: false, errorCode: 2001, errorCodeMsg: login
    failed}] and on a body that is no JSON text. *)
Lemma C7_witness :
  snd (dondominio_Update_run scenario.dondominio_provider context.Live
         (scenario.answers scenario.body_failure) scenario.requested)
  = Return [] (Some (Errorf errors.ErrUnsuccessfulResponse
                       "login failed (error code 2001)"))
  /\
  snd (dondominio_Update_run scenario.dondominio_provider context.Live
         (scenario.answers "<html>Bad Gateway</html>") scenario.requested)
  = Return [] (Some (Errorf errors.ErrUnmarshalResponse "invalid JSON text")).
Proof.
  split.
  - refine (proj1 (@C7_failure_flag_and_decode_failure model.externals
              model.dondominio_decode scenario.dondominio_provider context.Live
              (scenario.answers scenario.body_failure) scenario.requested
              _ _ eq_refl eq_refl eq_refl)
            {| dondominio.Success := false; dondominio.ErrorCode := 2001;
               dondominio.ErrorCodeMessage := "login failed";
               dondominio.ResponseData := {| dondominio.GlueRecords := [] |} |} _ _).
    + vm_compute. reflexivity.
    + reflexivity.
  - refine (proj1 (proj2 (@C7_failure_flag_and_decode_failure model.externals
              model.dondominio_decode scenario.dondominio_provider context.Live
              (scenario.answers "<html>Bad Gateway</html>") scenario.requested
              _ _ eq_refl eq_refl eq_refl)) "invalid JSON text" _).
    vm_compute. reflexivity.
Defined.

Section HostDefault.
Context {dd_settings : json.Unmarshaler dondominio.extraSettings}.
Context {ali_settings : json.Unmarshaler aliyun.extraSettings}.

(** C8 (as amended).  DonDominio: a provider constructed with an empty
    host has [Host() = "@"].  Aliyun: a provider constructed with host
    [host] has [Host() = host], the empty host included. *)
Theorem C8_host_default_is_dondominio_s :
  (forall data domain ipVersion p,
     dondominio.New data domain "" ipVersion = inl p -> dondominio.Host p = "@")
  /\
  (forall data domain host ipVersion p,
     aliyun.New data domain host ipVersion = inl p -> aliyun.Host p = host).
Proof.
  split.
  - intros data domain ipVersion p. unfold dondominio.New.
    destruct (json.Unmarshal data) as [es | e]; [|discriminate].
    cbn [String.length Nat.eqb]. destruct (dondominio.isValid _); [discriminate|].
    intros [= <-]. reflexivity.
  - intros data domain host ipVersion p. unfold aliyun.New.
    destruct (json.Unmarshal data) as [es | e]; [|discriminate].
    destruct (negb _); (destruct (aliyun.isValid _); [discriminate|]);
      intros [= <-]; reflexivity.
Qed.

End HostDefault.

(** C8 on the DonDominio configuration of the scenarios. *)
Lemma C8_witness :
  dondominio.Host scenario.dondominio_provider = "@".
Proof.
  refine (proj1 (@C8_host_default_is_dondominio_s
            model.dondominio_unmarshal model.aliyun_unmarshal)
          scenario.dondominio_config "example.com" ipversion.IP4or6
          scenario.dondominio_provider _).
  vm_compute. reflexivity.
Defined.

(** C8 as stated fails on Aliyun: with valid keys and an empty host,
    [New] succeeds and the provider's [Host()] is the empty string. *)
Lemma C8_aliyun_keeps_the_empty_host :
  exists p,
    aliyun_New_run scenario.aliyun_config "example.com" "" ipversion.IP4or6 = inl p /\
    aliyun.Host p = "" /\
    aliyun.Host p <> "@".
Proof.
  eexists. split; [vm_compute; reflexivity|]. split; [reflexivity | discriminate].
Qed.

(** C9 fails: for a response of status 200 whose body decodes with
    [success] set and an empty [gluerecords] array, or none at all,
    [Update] panics on [GlueRecords[0]]. *)
Theorem C9_empty_gluerecords_panics :
  snd (dondominio_Update_run scenario.dondominio_provider context.Live
         (scenario.answers scenario.body_no_records) scenario.requested)
  = Panic "runtime error: index out of range [0] with length 0"
  /\
  snd (dondominio_Update_run scenario.dondominio_provider context.Live
         (scenario.answers (json.text "{'success':true}")) scenario.requested)
  = Panic "runtime error: index out of range [0] with length 0".
Proof. split; vm_compute; reflexivity. Qed.

(** C10.  A provider that Aliyun's [New] constructs has the region of the
    decoded settings when that is not empty and [cn-hangzhou] when it is;
    its domain, host and IP version are the arguments of [New] and its two
    keys are those of the settings.  [New] constructs one whenever the two
    keys are not empty.  A configuration text without a [region] member
    decodes to the empty region, and yields [cn-hangzhou]; a [region]
    member is taken as it is. *)
Theorem C10_region_default :
  (forall (ali_settings : json.Unmarshaler aliyun.extraSettings)
          data domain host ipVersion es,
     json.Unmarshal data = inl es ->
     aliyun.AccessKeyID es <> "" ->
     aliyun.AccessSecret es <> "" ->
     aliyun.New data domain host ipVersion =
       inl {| aliyun.domain := domain;
              aliyun.host := host;
              aliyun.ipVersion := ipVersion;
              aliyun.accessKeyID := aliyun.AccessKeyID es;
              aliyun.accessSecret := aliyun.AccessSecret es;
              aliyun.region := if String.eqb (aliyun.Region es) "" then "cn-hangzhou"
                               else aliyun.Region es |})
  /\
  (forall domain host ipVersion,
     aliyun_New_run scenario.aliyun_config domain host ipVersion =
       inl {| aliyun.domain := domain; aliyun.host := host;
              aliyun.ipVersion := ipVersion; aliyun.accessKeyID := "key";
              aliyun.accessSecret := "secret"; aliyun.region := "cn-hangzhou" |})
  /\
  (forall domain host ipVersion,
     aliyun_New_run
       (json.text "{'access_key_id':'key','access_secret':'secret','region':'eu-west-1'}")
       domain host ipVersion =
       inl {| aliyun.domain := domain; aliyun.host := host;
              aliyun.ipVersion := ipVersion; aliyun.accessKeyID := "key";
              aliyun.accessSecret := "secret"; aliyun.region := "eu-west-1" |}).
Proof.
  split; [|split].
  - intros ali_settings data domain host ipVersion es Hd Hk Hs.
    rewrite (aliyun_New_cases _ _ _ _ _ Hd).
    apply String.eqb_neq in Hk, Hs. rewrite Hk, Hs. reflexivity.
  - intros. vm_compute. reflexivity.
  - intros. vm_compute. reflexivity.
Qed.

(** C10 on a configuration whose [region] member is the empty string. *)
Lemma C10_witness :
  aliyun_New_run
    (json.text "{'access_key_id':'key','access_secret':'secret','region':''}")
    "example.com" "www" ipversion.IP6
  = inl {| aliyun.domain := "example.com"; aliyun.host := "www";
           aliyun.ipVersion := ipversion.IP6; aliyun.accessKeyID := "key";
           aliyun.accessSecret := "secret"; aliyun.region := "cn-hangzhou" |}.
Proof.
  refine (proj1 C10_region_default model.aliyun_unmarshal
            (json.text "{'access_key_id':'key','access_secret':'secret','region':''}")
            "example.com" "www" ipversion.IP6
            {| aliyun.AccessKeyID := "key"; aliyun.AccessSecret := "secret";
               aliyun.Region := "" |} _ _ _).
  - vm_compute. reflexivity.
  - discriminate.
  - discriminate.
Defined.

(** ** Further properties of the two [Update] methods *)

Section Further.
Context {ext : Externals} {dd_response : json.Decoder dondominio.responseData}.

(** Whatever the context and the client, a pair that DonDominio's [Update]
    returns is never partially valid: either no address and an error, or
    an address that [Equal]s the requested one and no error. *)
Lemma dondominio_outcome_never_partial (p : dondominio.provider) ctx client ip newIP err :
  snd (dondominio.Update p ctx client ip) = Return newIP err ->
  (newIP = [] /\ err <> None) \/
  (newIP <> [] /\ err = None /\ net.Equal ip newIP = true).
Proof.
  unfold dondominio.Update. destruct ctx; cbn [http.NewRequestWithContext snd].
  { error_return. }
  destruct (client _) as [response | e]; cbn [snd]; [|error_return].
  destruct (negb _); [error_return|].
  destruct (json.Decode _) as [rd | e]; [|error_return].
  destruct (negb (dondominio.Success rd)); [error_return|].
  destruct (dondominio.GlueRecords _) as [| glue0 rest]; [discriminate|].
  cbv zeta.
  destruct (is_nil (net.ParseIP _)) eqn:Hnil; [error_return|].
  destruct (net.Equal ip _) eqn:Heq; cbn [negb]; [|error_return].
  intros [= <- <-]. right. repeat split; [|exact Heq].
  intros E. rewrite E in Hnil. discriminate.
Qed.

(** Aliyun's [Update] returns the requested address together with the
    error whenever the update call fails. *)
Lemma aliyun_failed_update_keeps_address sdk (p : aliyun.Provider) ctx client ip cl
    resp e :
  sdk (aliyun.region p) (aliyun.accessKeyID p) (aliyun.accessSecret p) = inl cl ->
  alidns.DescribeDomainRecords cl
    {| alidns.ListScheme := "https"; alidns.DomainName := aliyun.domain p;
       alidns.RRKeyWord := aliyun.host p |} = inl resp ->
  let recordID := aliyun.findRecordID (alidns.DomainRecords resp) (aliyun.host p) in
  recordID <> "" ->
  alidns.UpdateDomainRecord cl
    {| alidns.UpdScheme := "https";
       alidns.UpdValue := net.IP_String ip;
       alidns.UpdType := if is_nil (net.To4 ip) then constants_AAAA else constants_A;
       alidns.UpdRR := aliyun.host p;
       alidns.UpdRecordId := recordID |} = inr e ->
  snd (aliyun.Update sdk p ctx client ip) = Return ip (Some (Foreign e)).
Proof.
  intros Hsdk Hlist recordID Hid Hupd.
  rewrite (aliyun_listed sdk p ctx client ip cl resp Hsdk Hlist). fold recordID.
  apply String.eqb_neq in Hid. rewrite Hid. cbv zeta. cbn [snd]. rewrite Hupd. reflexivity.
Qed.

(** DonDominio's [Update] panics on every response of status 200 that
    decodes with [success] set and no glue record. *)
Lemma dondominio_no_glue_record_panics (p : dondominio.provider) ctx client ip request
    response rd :
  fst (dondominio.Update p ctx client ip) = [request] ->
  client request = inl response ->
  http.StatusCode response = http.StatusOK ->
  json.Decode (http.RespBody response) = inl rd ->
  dondominio.Success rd = true ->
  dondominio.GlueRecords (dondominio.ResponseData rd) = [] ->
  snd (dondominio.Update p ctx client ip)
  = Panic "runtime error: index out of range [0] with length 0".
Proof.
  intros Ht Hc Hs Hd Hok Hg.
  rewrite (dondominio_decoded _ _ _ _ _ _ _ Ht Hc Hs Hd), Hok, Hg. reflexivity.
Qed.

(** A reported address that does not parse is [ErrIPReceivedMalformed],
    with the text received. *)
Lemma dondominio_malformed_address (p : dondominio.provider) ctx client ip request
    response rd glue0 rest :
  fst (dondominio.Update p ctx client ip) = [request] ->
  client request = inl response ->
  http.StatusCode response = http.StatusOK ->
  json.Decode (http.RespBody response) = inl rd ->
  dondominio.Success rd = true ->
  dondominio.GlueRecords (dondominio.ResponseData rd) = glue0 :: rest ->
  let reported :=
    if is_nil (net.To4 ip) then dondominio.IPv6 glue0 else dondominio.IPv4 glue0 in
  net.ParseIP reported = [] ->
  snd (dondominio.Update p ctx client ip)
  = Return [] (Some (Errorf errors.ErrIPReceivedMalformed reported)).
Proof.
  intros Ht Hc Hs Hd Hok Hg reported Hp.
  rewrite (dondominio_decoded _ _ _ _ _ _ _ Ht Hc Hs Hd), Hok, Hg.
  cbn [negb]. fold reported. rewrite Hp. reflexivity.
Qed.

(** A status other than 200 is [ErrBadHTTPStatus], with the status code
    and the body on a single line; the body is not decoded. *)
Lemma dondominio_bad_status (p : dondominio.provider) ctx client ip request response :
  fst (dondominio.Update p ctx client ip) = [request] ->
  client request = inl response ->
  http.StatusCode response <> http.StatusOK ->
  snd (dondominio.Update p ctx client ip)
  = Return [] (Some (Errorf errors.ErrBadHTTPStatus
      (itoa (http.StatusCode response) +:+ ": "
       +:+ utils_BodyToSingleLine (http.RespBody response)))).
Proof.
  intros Ht Hc Hs.
  destruct (dondominio_trace _ _ _ _ _ Ht) as [-> Hu].
  rewrite (Hu client), Hc. cbn [snd].
  unfold dondominio.Update. cbn [http.NewRequestWithContext snd].
  apply Z.eqb_neq in Hs. rewrite Hs. reflexivity.
Qed.

(** With a nil context no request is made; with a live one exactly one
    request is made, and an error of the client is passed on. *)
Lemma dondominio_transport (p : dondominio.provider) client ip :
  fst (dondominio.Update p context.Nil client ip) = [] /\
  (exists request,
     fst (dondominio.Update p context.Live client ip) = [request] /\
     forall e, client request = inr e ->
       snd (dondominio.Update p context.Live client ip) = Return [] (Some (Foreign e))).
Proof.
  split; [reflexivity|].
  unfold dondominio.Update. cbn [http.NewRequestWithContext].
  eexists. split.
  - destruct (client _); reflexivity.
  - intros e He. rewrite He. reflexivity.
Qed.

End Further.

Lemma dondominio_outcome_never_partial_witness :
  (scenario.requested = [] /\ @None error <> None) \/
  (scenario.requested <> [] /\ @None error = None /\
   net.Equal scenario.requested4 scenario.requested = true).
Proof.
  refine (@dondominio_outcome_never_partial model.externals model.dondominio_decode
            scenario.dondominio_provider context.Live
            (scenario.answers scenario.body_same) scenario.requested4
            scenario.requested None _).
  vm_compute. reflexivity.
Defined.

Lemma aliyun_failed_update_keeps_address_witness :
  snd (aliyun_Update_run (scenario.sdk scenario.listing scenario.update_fails)
         scenario.aliyun_provider context.Live (scenario.answers "") scenario.requested6)
  = Return scenario.requested6
      (Some (Foreign "SDK.ServerError: LastOperationNotFinished")).
Proof.
  eapply (@aliyun_failed_update_keeps_address model.externals
            (scenario.sdk scenario.listing scenario.update_fails)).
  - reflexivity.
  - reflexivity.
  - vm_compute. discriminate.
  - reflexivity.
Defined.

Lemma dondominio_no_glue_record_panics_witness :
  snd (dondominio_Update_run scenario.dondominio_provider context.Live
         (scenario.answers scenario.body_no_records) scenario.requested6)
  = Panic "runtime error: index out of range [0] with length 0".
Proof.
  refine (@dondominio_no_glue_record_panics model.externals model.dondominio_decode
            scenario.dondominio_provider context.Live
            (scenario.answers scenario.body_no_records) scenario.requested6 _ _
            {| dondominio.Success := true; dondominio.ErrorCode := 0;
               dondominio.ErrorCodeMessage := "";
               dondominio.ResponseData := {| dondominio.GlueRecords := [] |} |}
            eq_refl eq_refl eq_refl _ eq_refl eq_refl).
  vm_compute. reflexivity.
Defined.

Lemma dondominio_malformed_address_witness :
  snd (dondominio_Update_run scenario.dondominio_provider context.Live
         (scenario.answers scenario.body_same) scenario.requested6)
  = Return [] (Some (Errorf errors.ErrIPReceivedMalformed "")).
Proof.
  refine (@dondominio_malformed_address model.externals model.dondominio_decode
            scenario.dondominio_provider context.Live
            (scenario.answers scenario.body_same) scenario.requested6 _ _
            {| dondominio.Success := true; dondominio.ErrorCode := 0;
               dondominio.ErrorCodeMessage := "";
               dondominio.ResponseData :=
                 {| dondominio.GlueRecords :=
                      [ {| dondominio.IPv4 := "203.0.113.5"; dondominio.IPv6 := "" |} ] |} |}
            {| dondominio.IPv4 := "203.0.113.5"; dondominio.IPv6 := "" |} []
            eq_refl eq_refl eq_refl _ eq_refl eq_refl _).
  - vm_compute. reflexivity.
  - vm_compute. reflexivity.
Defined.

Lemma dondominio_bad_status_witness :
  snd (dondominio_Update_run scenario.dondominio_provider context.Live
         (fun _ => inl {| http.StatusCode := 503; http.RespBody := "Service Unavailable" |})
         scenario.requested)
  = Return [] (Some (Errorf errors.ErrBadHTTPStatus "503: Service Unavailable")).
Proof.
  refine (@dondominio_bad_status model.externals model.dondominio_decode
            scenario.dondominio_provider context.Live
            (fun _ => inl {| http.StatusCode := 503;
                             http.RespBody := "Service Unavailable" |})
            scenario.requested _
            {| http.StatusCode := 503; http.RespBody := "Service Unavailable" |}
            eq_refl eq_refl _).
  discriminate.
Defined.

Section Invariant.
Context {dd_settings : json.Unmarshaler dondominio.extraSettings}.
Context {ali_settings : json.Unmarshaler aliyun.extraSettings}.

(** A provider that [New] returns holds a valid configuration: [isValid]
    accepts it, its credential fields are not empty, DonDominio's host is
    [@] and Aliyun's region is not empty. *)
Lemma constructed_providers_are_valid :
  (forall data domain host ipVersion p,
     dondominio.New data domain host ipVersion = inl p ->
     dondominio.isValid p = None /\
     dondominio.username p <> "" /\ dondominio.password p <> "" /\
     dondominio.name p <> "" /\ dondominio.host p = "@")
  /\
  (forall data domain host ipVersion p,
     aliyun.New data domain host ipVersion = inl p ->
     aliyun.isValid p = None /\
     aliyun.accessKeyID p <> "" /\ aliyun.accessSecret p <> "" /\
     aliyun.region p <> "").
Proof.
  split.
  - intros data domain host ipVersion p.
    destruct (json.Unmarshal (T := dondominio.extraSettings) data) as [es | e] eqn:Hd.
    2:{ unfold dondominio.New. rewrite Hd. discriminate. }
    rewrite (dondominio_New_cases _ _ _ _ _ Hd).
    destruct (String.eqb (dondominio.Username es) "") eqn:Hu; [discriminate|].
    destruct (String.eqb (dondominio.Password es) "") eqn:Hp; [discriminate|].
    destruct (String.eqb (dondominio.Name es) "") eqn:Hn; [discriminate|].
    destruct (String.eqb host "" || String.eqb host "@"); [|discriminate].
    intros [= <-].
    unfold dondominio.isValid.
    cbn [dondominio.username dondominio.password dondominio.name dondominio.host].
    rewrite !length_zero_eqb, Hu, Hp, Hn.
    apply String.eqb_neq in Hu, Hp, Hn. repeat split; assumption.
  - intros data domain host ipVersion p.
    destruct (json.Unmarshal (T := aliyun.extraSettings) data) as [es | e] eqn:Hd.
    2:{ unfold aliyun.New. rewrite Hd. discriminate. }
    rewrite (aliyun_New_cases _ _ _ _ _ Hd).
    destruct (String.eqb (aliyun.AccessKeyID es) "") eqn:Hk; [discriminate|].
    destruct (String.eqb (aliyun.AccessSecret es) "") eqn:Hs; [discriminate|].
    intros [= <-].
    unfold aliyun.isValid.
    cbn [aliyun.accessKeyID aliyun.accessSecret aliyun.region].
    rewrite Hk, Hs.
    apply String.eqb_neq in Hk, Hs. split; [reflexivity|]. split; [exact Hk|].
    split; [exact Hs|].
    destruct (String.eqb (aliyun.Region es) "") eqn:Hr.
    + discriminate.
    + apply String.eqb_neq in Hr. exact Hr.
Qed.

End Invariant.

Lemma constructed_providers_are_valid_witness :
  aliyun.isValid scenario.aliyun_provider = None /\
  aliyun.accessKeyID scenario.aliyun_provider <> "" /\
  aliyun.accessSecret scenario.aliyun_provider <> "" /\
  aliyun.region scenario.aliyun_provider <> "".
Proof.
  refine (proj2 (@constructed_providers_are_valid model.dondominio_unmarshal
                   model.aliyun_unmarshal)
            scenario.aliyun_config "example.com" "www" ipversion.IP4or6
            scenario.aliyun_provider _).
  vm_compute. reflexivity.
Defined.

(** ** Addresses, the wire format and the calls made *)

(** *** [Equal] and [To4] *)

Lemma bytesEqual_eq (a b : list byte) : bytesEqual a b = true <-> a = b.
Proof.
  revert b. induction a as [| x a IH]; intros [| y b]; cbn [bytesEqual];
    try (split; [discriminate | discriminate]); try (split; reflexivity).
  rewrite andb_true_iff, IH. split.
  - intros [Hx ->]. apply Byte.byte_dec_bl in Hx. now subst.
  - intros [= -> ->]. split; [apply Byte.byte_dec_lb|]; reflexivity.
Qed.

Lemma bytesEqual_refl (a : list byte) : bytesEqual a a = true.
Proof. now apply bytesEqual_eq. Qed.

Lemma To4_mapped (p4 : list byte) :
  length p4 = 4 -> net.To4 (net.v4InV6Prefix ++ p4) = p4.
Proof.
  destruct p4 as [| a [| b [| c [| d [| e r]]]]]; try discriminate. reflexivity.
Qed.

(** [To4] returns nil or four bytes. *)
Lemma To4_length (ip : net.IP) : net.To4 ip = [] \/ length (net.To4 ip) = 4.
Proof.
  unfold net.To4. destruct (Nat.eqb (length ip) net.IPv4len) eqn:H4.
  - right. now apply Nat.eqb_eq in H4.
  - destruct (_ && _) eqn:H; [|now left]. right.
    apply andb_prop in H as [H _]. apply andb_prop in H as [H _].
    apply andb_prop in H as [H _]. apply Nat.eqb_eq in H.
    rewrite length_skipn, H. reflexivity.
Qed.

Lemma split_at_12 (x : list byte) :
  length x = 16 -> firstn 12 x = net.v4InV6Prefix -> x = net.v4InV6Prefix ++ skipn 12 x.
Proof. intros _ H. rewrite <- H. symmetry. apply firstn_skipn. Qed.

(** Addresses that [Equal] have the same [To4]. *)
Lemma Equal_To4 (ip x : net.IP) : net.Equal ip x = true -> net.To4 ip = net.To4 x.
Proof.
  unfold net.Equal.
  destruct (Nat.eqb (length ip) (length x)) eqn:Hl.
  { intros H. apply bytesEqual_eq in H. now subst. }
  destruct (Nat.eqb (length ip) net.IPv4len && Nat.eqb (length x) net.IPv6len) eqn:H46.
  { apply andb_prop in H46 as [Hi Hx]. apply Nat.eqb_eq in Hi, Hx.
    intros H. apply andb_prop in H as [Hp Hs]. apply bytesEqual_eq in Hp, Hs.
    rewrite (split_at_12 x Hx Hp), <- Hs.
    rewrite (To4_mapped ip Hi). unfold net.To4. now rewrite Hi. }
  destruct (Nat.eqb (length ip) net.IPv6len && Nat.eqb (length x) net.IPv4len) eqn:H64;
    [|discriminate].
  apply andb_prop in H64 as [Hi Hx]. apply Nat.eqb_eq in Hi, Hx.
  intros H. apply andb_prop in H as [Hp Hs]. apply bytesEqual_eq in Hp, Hs.
  rewrite (split_at_12 ip Hi Hp), Hs.
  rewrite (To4_mapped x Hx). unfold net.To4. now rewrite Hx.
Qed.

Lemma Equal_lengths (ip x : net.IP) :
  net.Equal ip x = true -> length x = 16 -> length ip = 4 \/ length ip = 16.
Proof.
  unfold net.Equal. intros H Hx.
  destruct (Nat.eqb (length ip) (length x)) eqn:Hl.
  { apply Nat.eqb_eq in Hl. right. congruence. }
  destruct (Nat.eqb (length ip) net.IPv4len && Nat.eqb (length x) net.IPv6len) eqn:H46.
  { apply andb_prop in H46 as [Hi _]. apply Nat.eqb_eq in Hi. now left. }
  destruct (Nat.eqb (length ip) net.IPv6len && Nat.eqb (length x) net.IPv4len) eqn:H64;
    [|discriminate].
  apply andb_prop in H64 as [Hi _]. apply Nat.eqb_eq in Hi. now right.
Qed.

(** An address of four bytes, or of sixteen bytes that [To4] accepts,
    [Equal]s the 16-byte form of its [To4]. *)
Lemma Equal_mapped (ip : net.IP) :
  net.To4 ip <> [] -> net.Equal ip (net.v4InV6Prefix ++ net.To4 ip) = true.
Proof.
  intros Hn. destruct (To4_length ip) as [H | H4]; [contradiction|].
  unfold net.To4 in *. destruct (Nat.eqb (length ip) net.IPv4len) eqn:Hl.
  - apply Nat.eqb_eq in Hl. unfold net.Equal.
    rewrite length_app, Hl. cbn [length net.v4InV6Prefix Nat.add Nat.eqb net.IPv4len].
    cbn [andb net.IPv6len Nat.eqb].
    change 12 with (length net.v4InV6Prefix) at 1 2.
    rewrite firstn_app, Nat.sub_diag, firstn_all, firstn_O, app_nil_r.
    rewrite skipn_app, Nat.sub_diag, skipn_all, skipn_O. cbn [app].
    now rewrite !bytesEqual_refl.
  - destruct (_ && _) eqn:H; [|contradiction].
    apply andb_prop in H as [H Hb]. apply andb_prop in H as [H Ha].
    apply andb_prop in H as [H16 Hz]. apply Nat.eqb_eq in H16.
    apply Byte.byte_dec_bl in Ha, Hb.
    assert (E : net.v4InV6Prefix ++ skipn 12 ip = ip).
    { do 17 (destruct ip as [| ? ip]; try discriminate).
      unfold net.isZeros in Hz. cbn [firstn forallb nth] in Hz, Ha, Hb.
      cbn [skipn app net.v4InV6Prefix]. subst.
      repeat match type of Hz with
             | (Byte.eqb _ _ && _) = true => apply andb_prop in Hz as [?H Hz]
             end.
      repeat match goal with H : Byte.eqb _ _ = true |- _ =>
               apply Byte.byte_dec_bl in H; subst end.
      reflexivity. }
    rewrite E. unfold net.Equal. rewrite Nat.eqb_refl. apply bytesEqual_refl.
Qed.

(** *** [ParseIP] returns nil or sixteen bytes *)

Lemma parseIPv4Fields_loop_length s : forall start prevDot val digLen fields f,
  length fields <= 3 ->
  net.parseIPv4Fields_loop s start prevDot val digLen fields = Some f ->
  length f = 4.
Proof.
  induction s as [| c rest IH]; intros start prevDot val digLen fields f Hle;
    cbn [net.parseIPv4Fields_loop].
  - destruct (Nat.ltb (length fields) 3) eqn:Hlt; [discriminate|].
    apply Nat.ltb_ge in Hlt. intros [= <-]. rewrite length_app. cbn [length]. lia.
  - destruct (isDigit c).
    + destruct (_ && _); [discriminate|]. cbv zeta.
      destruct (N.ltb 255 _); [discriminate|]. now apply IH.
    + destruct (Ascii.eqb c "."); [|discriminate].
      destruct (_ || _); [discriminate|].
      destruct (Nat.eqb (length fields) 3) eqn:H3; [discriminate|].
      apply Nat.eqb_neq in H3. apply IH. rewrite length_app. cbn [length]. lia.
Qed.

Lemma parseIPv4Fields_length s f : net.parseIPv4Fields s = Some f -> length f = 4.
Proof. apply parseIPv4Fields_loop_length. cbn [length]. lia. Qed.

Lemma parseIPv6_loop_length fuel : forall s ip ell rest ip' ell',
  (exists k, length ip = 2 * k) ->
  length ip <= 16 ->
  net.parseIPv6_loop fuel s ip ell = Some (rest, ip', ell') ->
  length ip' <= 16.
Proof.
  induction fuel as [| fuel IH]; intros s ip ell rest ip' ell' [k Hk] Hle;
    cbn [net.parseIPv6_loop].
  { intros [= _ <- _]. exact Hle. }
  destruct (Nat.leb 16 (length ip)) eqn:H16.
  { intros [= _ <- _]. exact Hle. }
  apply Nat.leb_gt in H16.
  destruct (net.parseHexGroup s 0%N 0) as [[[acc off] r] |]; [|discriminate].
  destruct (Nat.eqb off 0); [discriminate|].
  assert (Hstep : forall a b2 : byte, length (ip ++ [a; b2]) <= 16 /\
                    exists k', length (ip ++ [a; b2]) = 2 * k').
  { intros a b2. rewrite length_app. cbn [length]. split; [lia|]. exists (S k). lia. }
  destruct r as [| c r1].
  { intros [= _ <- _]. apply Hstep. }
  destruct (Ascii.eqb c ".") eqn:Hdot.
  { apply Ascii.eqb_eq in Hdot. subst c.
    destruct (_ && _); [discriminate|].
    destruct (Nat.ltb 16 (length ip + 4)) eqn:Hroom; [discriminate|].
    apply Nat.ltb_ge in Hroom.
    destruct (net.parseIPv4Fields s) as [f |] eqn:Hf; [|discriminate].
    intros [= _ <- _]. rewrite length_app, (parseIPv4Fields_length _ _ Hf). exact Hroom. }
  assert (Hgen :
    (let ip1 := ip ++ [byte_of_N (N.shiftr acc 8); byte_of_N acc] in
     if negb (Ascii.eqb c ":") then None
     else
       match r1 with
       | EmptyString => None
       | String ":" rest2 =>
           if is_some ell then None
           else
             match rest2 with
             | EmptyString => Some (EmptyString, ip1, Some (length ip1))
             | _ => net.parseIPv6_loop fuel rest2 ip1 (Some (length ip1))
             end
       | _ => net.parseIPv6_loop fuel r1 ip1 ell
       end) = Some (rest, ip', ell') -> length ip' <= 16).
  { cbv zeta. destruct (negb _); [discriminate|].
    destruct r1 as [| c1 r2]; [discriminate|].
    destruct (Ascii.eqb c1 ":") eqn:Hc1.
    - apply Ascii.eqb_eq in Hc1. subst c1.
      destruct (is_some ell); [discriminate|].
      destruct r2.
      + intros [= _ <- _]. apply Hstep.
      + apply IH; apply Hstep.
    - assert (Hsame : forall X Y : option (string * list byte * option nat),
               match c1 with
               | ":"%char => X
               | _ => Y
               end = Y).
      { intros X Y. destruct c1 as [[] [] [] [] [] [] [] []]; try reflexivity.
        discriminate. }
      rewrite Hsame. apply IH; apply Hstep. }
  destruct c as [[] [] [] [] [] [] [] []]; try exact Hgen; discriminate.
Qed.

Lemma parseIPv6_length input ip zone :
  net.parseIPv6 input = Some (ip, zone) -> length ip = 16.
Proof.
  unfold net.parseIPv6.
  destruct (match net.index_percent input with
            | Some (s, z) => if String.eqb z "" then None else Some (s, z)
            | None => Some (input, "")
            end) as [[s z] |]; [|discriminate].
  assert (Hloop : forall s1 ell,
    match net.parseIPv6_loop 8 s1 [] ell with
    | None => None
    | Some (rest, ip0, ell0) =>
        if negb (String.eqb rest "") then None
        else if Nat.ltb (length ip0) 16 then
          match ell0 with
          | None => None
          | Some e =>
              Some (firstn e ip0 ++ repeat Byte.x00 (16 - length ip0) ++ skipn e ip0, z)
          end
        else if is_some ell0 then None
        else Some (ip0, z)
    end = Some (ip, zone) -> length ip = 16).
  { intros s1 ell.
    destruct (net.parseIPv6_loop 8 s1 [] ell) as [[[rest ip0] ell0] |] eqn:Hl;
      [|discriminate].
    assert (Hle : length ip0 <= 16).
    { eapply parseIPv6_loop_length; [| | exact Hl]; cbn [length]; [exists 0|]; lia. }
    destruct (negb _); [discriminate|].
    destruct (Nat.ltb (length ip0) 16) eqn:Hlt.
    - apply Nat.ltb_lt in Hlt. destruct ell0 as [e |]; [|discriminate].
      intros [= <- _]. rewrite !length_app, repeat_length, length_firstn, length_skipn. lia.
    - apply Nat.ltb_ge in Hlt. destruct (is_some ell0); [discriminate|].
      intros [= <- _]. lia. }
  destruct s as [| c1 s]; [apply Hloop|].
  destruct s as [| c2 s].
  { destruct c1 as [[] [] [] [] [] [] [] []]; apply Hloop. }
  destruct (Ascii.eqb c1 ":") eqn:H1; destruct (Ascii.eqb c2 ":") eqn:H2;
    try (apply Ascii.eqb_eq in H1); try (apply Ascii.eqb_eq in H2); subst.
  - destruct s; [|apply Hloop]. intros [= <- _]. reflexivity.
  - destruct c2 as [[] [] [] [] [] [] [] []]; try apply Hloop. discriminate.
  - destruct c1 as [[] [] [] [] [] [] [] []]; try apply Hloop. discriminate.
  - destruct c1 as [[] [] [] [] [] [] [] []]; try apply Hloop.
    destruct c2 as [[] [] [] [] [] [] [] []]; try apply Hloop. discriminate.
Qed.

Lemma ParseAddr_scan_length whole s ip zone :
  net.ParseAddr_scan whole s = Some (ip, zone) -> length ip = 16.
Proof.
  induction s as [| c rest IH]; cbn [net.ParseAddr_scan]; [discriminate|].
  destruct (Ascii.eqb c ".").
  { destruct (net.parseIPv4Fields whole) as [f |] eqn:Hf; [|discriminate].
    intros [= <- _]. pose proof (parseIPv4Fields_length _ _ Hf) as H4.
    unfold net.v4InV6Prefix. cbn [length app]. now rewrite H4. }
  destruct (Ascii.eqb c ":"); [apply parseIPv6_length|].
  destruct (Ascii.eqb c "%"); [discriminate | exact IH].
Qed.

(** [net.ParseIP] returns nil or an address of sixteen bytes. *)
Lemma ParseIP_length (s : string) : net.ParseIP s = [] \/ length (net.ParseIP s) = 16.
Proof.
  unfold net.ParseIP.
  destruct (net.ParseAddr_scan s s) as [[ip zone] |] eqn:H; [|now left].
  destruct (String.eqb zone ""); [|now left]. right.
  eapply ParseAddr_scan_length, H.
Qed.

(** *** Printing then parsing an IPv4 address *)

Lemma utoa_not_empty (a : byte) (rest : string) : net.utoa (Byte.to_N a) +:+ rest <> "".
Proof. destruct a; discriminate. Qed.

Lemma parse_octet_dot (a : byte) (rest : string) start fields :
  rest <> "" ->
  net.parseIPv4Fields_loop (net.utoa (Byte.to_N a) +:+ String "." rest) start false 0%N 0
    fields
  = if Nat.eqb (length fields) 3 then None
    else net.parseIPv4Fields_loop rest false true 0%N 0 (fields ++ [a]).
Proof.
  intros Hr. destruct rest as [| c r]; [contradiction|]. clear Hr.
  destruct a; reflexivity.
Qed.

Lemma parse_octet_dot' (a : byte) (rest : string) fields :
  rest <> "" ->
  net.parseIPv4Fields_loop (net.utoa (Byte.to_N a) +:+ String "." rest) false true 0%N 0
    fields
  = if Nat.eqb (length fields) 3 then None
    else net.parseIPv4Fields_loop rest false true 0%N 0 (fields ++ [a]).
Proof.
  intros Hr. destruct rest as [| c r]; [contradiction|]. clear Hr.
  destruct a; reflexivity.
Qed.

Lemma parse_octet_end (a : byte) fields :
  net.parseIPv4Fields_loop (net.utoa (Byte.to_N a)) false true 0%N 0 fields
  = if Nat.ltb (length fields) 3 then None else Some (fields ++ [a]).
Proof. destruct a; reflexivity. Qed.

Lemma scan_octet_dot (a : byte) (whole rest : string) :
  net.ParseAddr_scan whole (net.utoa (Byte.to_N a) +:+ String "." rest)
  = match net.parseIPv4Fields whole with
    | Some f => Some (net.v4InV6Prefix ++ f, "")
    | None => None
    end.
Proof. destruct a; reflexivity. Qed.

Lemma dotted_eq (a b c d : byte) :
  net.dotted [a; b; c; d]
  = net.utoa (Byte.to_N a) +:+ String "."
      (net.utoa (Byte.to_N b) +:+ String "."
         (net.utoa (Byte.to_N c) +:+ String "." (net.utoa (Byte.to_N d)))).
Proof. reflexivity. Qed.

(** Parsing the dotted form of four bytes gives their 16-byte form. *)
Lemma ParseIP_dotted (a b c d : byte) :
  net.ParseIP (net.dotted [a; b; c; d]) = net.IPv4 a b c d.
Proof.
  unfold net.ParseIP. rewrite dotted_eq, scan_octet_dot.
  unfold net.parseIPv4Fields.
  rewrite parse_octet_dot by apply utoa_not_empty.
  rewrite parse_octet_dot' by apply utoa_not_empty.
  rewrite parse_octet_dot' by (destruct d; discriminate).
  rewrite parse_octet_end. reflexivity.
Qed.

Lemma To4_not_nil_length (ip : net.IP) :
  net.To4 ip <> [] -> length ip = 4 \/ length ip = 16.
Proof.
  unfold net.To4. destruct (Nat.eqb (length ip) net.IPv4len) eqn:H4.
  - apply Nat.eqb_eq in H4. now left.
  - destruct (Nat.eqb (length ip) net.IPv6len) eqn:H16; [|now intros []].
    apply Nat.eqb_eq in H16. now right.
Qed.

(** An address that [To4] accepts is printed in dotted form. *)
Lemma IP_String_dotted (ip : net.IP) :
  net.To4 ip <> [] -> net.IP_String ip = net.dotted (net.To4 ip).
Proof.
  intros Hn. unfold net.IP_String.
  destruct (To4_length ip) as [H | H4]; [contradiction|].
  destruct (To4_not_nil_length ip Hn) as [Hl | Hl]; rewrite Hl, H4; reflexivity.
Qed.

(** Printing an address that [To4] accepts and parsing the text gives
    the 16-byte form of the address. *)
Lemma ParseIP_IP_String_v4 (ip : net.IP) :
  net.To4 ip <> [] -> net.ParseIP (net.IP_String ip) = net.v4InV6Prefix ++ net.To4 ip.
Proof.
  intros Hn. rewrite (IP_String_dotted ip Hn).
  destruct (To4_length ip) as [H | H4]; [contradiction|].
  destruct (net.To4 ip) as [| a [| b [| c [| d [| e r]]]]]; try discriminate.
  apply ParseIP_dotted.
Qed.

Section Addresses.
Context {ext : Externals} {dd_response : json.Decoder dondominio.responseData}.

(** The address DonDominio's [Update] returns with a nil error is the
    parsed text of the response: it has sixteen bytes, the requested
    address has four or sixteen, and both have the same [To4]. *)
Lemma dondominio_confirmed_address_shape (p : dondominio.provider) ctx client ip newIP :
  snd (dondominio.Update p ctx client ip) = Return newIP None ->
  length newIP = 16 /\
  (length ip = 4 \/ length ip = 16) /\
  net.To4 newIP = net.To4 ip.
Proof.
  unfold dondominio.Update. destruct ctx; cbn [http.NewRequestWithContext snd];
    [discriminate|].
  destruct (client _) as [response | e]; cbn [snd]; [|discriminate].
  destruct (negb _); [discriminate|].
  destruct (json.Decode _) as [rd | e]; [|discriminate].
  destruct (negb (dondominio.Success rd)); [discriminate|].
  destruct (dondominio.GlueRecords _) as [| glue0 rest]; [discriminate|].
  cbv zeta.
  destruct (is_nil (net.ParseIP _)) eqn:Hnil; [discriminate|].
  destruct (net.Equal ip _) eqn:Heq; cbn [negb]; [|discriminate].
  intros [= <-].
  match type of Heq with net.Equal ip (net.ParseIP ?s) = true =>
    destruct (ParseIP_length s) as [E | H16] end.
  { rewrite E in Hnil. discriminate. }
  split; [exact H16|]. split.
  - exact (Equal_lengths _ _ Heq H16).
  - symmetry. exact (Equal_To4 _ _ Heq).
Qed.

(** When the provider's response echoes, in its [ipv4] field, the text
    [ip.String()] that the request carried for an address that [To4]
    accepts, [Update] confirms: it returns the 16-byte form of the
    address and a nil error. *)
Lemma dondominio_echo_ipv4_confirmed (p : dondominio.provider) ctx client ip request
    response rd glue0 rest :
  fst (dondominio.Update p ctx client ip) = [request] ->
  client request = inl response ->
  http.StatusCode response = http.StatusOK ->
  json.Decode (http.RespBody response) = inl rd ->
  dondominio.Success rd = true ->
  dondominio.GlueRecords (dondominio.ResponseData rd) = glue0 :: rest ->
  net.To4 ip <> [] ->
  dondominio.IPv4 glue0 = net.IP_String ip ->
  snd (dondominio.Update p ctx client ip)
  = Return (net.v4InV6Prefix ++ net.To4 ip) None.
Proof.
  intros Ht Hc Hs Hd Hok Hg Hv4 Hecho.
  rewrite (dondominio_decoded _ _ _ _ _ _ _ Ht Hc Hs Hd), Hok, Hg.
  cbn [negb]. rewrite (is_nil_false _ Hv4). cbv zeta.
  rewrite Hecho, (ParseIP_IP_String_v4 ip Hv4), (Equal_mapped ip Hv4).
  reflexivity.
Qed.

End Addresses.

Lemma count_char_app c s t : count_char c (s +:+ t) = count_char c s + count_char c t.
Proof. induction s as [| x s IH]; simpl; [reflexivity|]. rewrite IH. lia. Qed.

Lemma QueryEscape_app s t :
  url.QueryEscape (s +:+ t) = url.QueryEscape s +:+ url.QueryEscape t.
Proof.
  induction s as [| x s IH]; simpl; [reflexivity|].
  rewrite IH. destruct (Ascii.eqb x " "); [reflexivity|].
  destruct (url.shouldEscape x); reflexivity.
Qed.

(** An escaped text holds no [&] and no [=]. *)
Lemma QueryEscape_no_separator s :
  count_char "&" (url.QueryEscape s) = 0 /\ count_char "=" (url.QueryEscape s) = 0.
Proof.
  induction s as [| x s [IHa IHe]]; [split; reflexivity|].
  destruct x as [[] [] [] [] [] [] [] []]; split; cbn; assumption.
Qed.

Lemma QueryEscape_octet (a : byte) :
  url.QueryEscape (net.utoa (Byte.to_N a)) = net.utoa (Byte.to_N a).
Proof. destruct a; reflexivity. Qed.

(** The dotted form of four bytes needs no escaping. *)
Lemma QueryEscape_dotted (p4 : list byte) : url.QueryEscape (net.dotted p4) = net.dotted p4.
Proof.
  destruct p4 as [| a [| b [| c [| d [| e r]]]]]; try reflexivity.
  unfold net.dotted. rewrite !QueryEscape_app, !QueryEscape_octet. reflexivity.
Qed.

Section Wire.
Context {ext : Externals} {dd_response : json.Decoder dondominio.responseData}.

(** The body of the request DonDominio's [Update] builds. *)
Lemma dondominio_body (p : dondominio.provider) ctx client ip request :
  In request (fst (dondominio.Update p ctx client ip)) ->
  http.Body request
  = "apipasswd=" +:+ url.QueryEscape (dondominio.password p)
    +:+ "&apiuser=" +:+ url.QueryEscape (dondominio.username p)
    +:+ "&domain=" +:+ url.QueryEscape (dondominio.domain p)
    +:+ (if is_nil (net.To4 ip) then "&ipv6=" else "&ipv4=")
    +:+ url.QueryEscape (net.IP_String ip)
    +:+ "&name=" +:+ url.QueryEscape (dondominio.name p).
Proof.
  intros Hin. unfold dondominio.Update in Hin.
  destruct ctx; cbn [http.NewRequestWithContext fst] in Hin; [destruct Hin|].
  destruct (client _); cbn [fst In] in Hin; destruct Hin as [<- | []];
    cbn [dondominio.setHeaders http.with_header http.Body];
    destruct (is_nil (net.To4 ip)); reflexivity.
Qed.

(** The request DonDominio's [Update] hands to the client: a POST to
    https://simple-api.dondominio.net whose header is what the three
    setters of [headers] make of the empty header, and whose body lists,
    sorted by name, the escaped password, user, domain, address and
    name. *)
Lemma dondominio_request_wire_format (p : dondominio.provider) ctx client ip request :
  In request (fst (dondominio.Update p ctx client ip)) ->
  http.Method request = "POST" /\
  http.URL request = "https://simple-api.dondominio.net" /\
  http.Header request
  = headers_SetAccept
      (headers_SetContentType (headers_SetUserAgent ∅) "application/x-www-form-urlencoded")
      "application/json" /\
  http.Body request
  = "apipasswd=" +:+ url.QueryEscape (dondominio.password p)
    +:+ "&apiuser=" +:+ url.QueryEscape (dondominio.username p)
    +:+ "&domain=" +:+ url.QueryEscape (dondominio.domain p)
    +:+ (if is_nil (net.To4 ip) then "&ipv6=" else "&ipv4=")
    +:+ url.QueryEscape (net.IP_String ip)
    +:+ "&name=" +:+ url.QueryEscape (dondominio.name p).
Proof.
  intros Hin. split; [|split; [|split]]; [| | |exact (dondominio_body _ _ _ _ _ Hin)];
    unfold dondominio.Update in Hin;
    (destruct ctx; cbn [http.NewRequestWithContext fst] in Hin; [destruct Hin|]);
    destruct (client _); cbn [fst In] in Hin; destruct Hin as [<- | []]; reflexivity.
Qed.

(** Whatever the credentials, the domain and the address hold, the body
    of DonDominio's request has exactly four [&] and five [=]: the five
    parameters cannot be split or extended by their values. *)
Lemma dondominio_body_separators (p : dondominio.provider) ctx client ip request :
  In request (fst (dondominio.Update p ctx client ip)) ->
  count_char "&" (http.Body request) = 4 /\ count_char "=" (http.Body request) = 5.
Proof.
  intros Hin. rewrite (dondominio_body p ctx client ip request Hin).
  rewrite !count_char_app.
  destruct (QueryEscape_no_separator (dondominio.password p)) as [-> ->].
  destruct (QueryEscape_no_separator (dondominio.username p)) as [-> ->].
  destruct (QueryEscape_no_separator (dondominio.domain p)) as [-> ->].
  destruct (QueryEscape_no_separator (dondominio.name p)) as [-> ->].
  destruct (QueryEscape_no_separator (net.IP_String ip)) as [-> ->].
  destruct (is_nil (net.To4 ip)); split; reflexivity.
Qed.

(** For an address that [To4] accepts, the request carries the [ipv4]
    parameter with the dotted form of its four bytes, unescaped. *)
Lemma dondominio_ipv4_sent_dotted (p : dondominio.provider) ctx client ip request :
  In request (fst (dondominio.Update p ctx client ip)) ->
  net.To4 ip <> [] ->
  http.Body request
  = "apipasswd=" +:+ url.QueryEscape (dondominio.password p)
    +:+ "&apiuser=" +:+ url.QueryEscape (dondominio.username p)
    +:+ "&domain=" +:+ url.QueryEscape (dondominio.domain p)
    +:+ "&ipv4=" +:+ net.dotted (net.To4 ip)
    +:+ "&name=" +:+ url.QueryEscape (dondominio.name p).
Proof.
  intros Hin Hv4. rewrite (dondominio_body p ctx client ip request Hin).
  rewrite (is_nil_false _ Hv4), (IP_String_dotted ip Hv4), QueryEscape_dotted.
  reflexivity.
Qed.

End Wire.

Section Construction.
Context {dd_settings : json.Unmarshaler dondominio.extraSettings}.
Context {ali_settings : json.Unmarshaler aliyun.extraSettings}.

(** DonDominio's [New] treats the empty host as [@]: both give the same
    result, whatever the configuration. *)
Lemma dondominio_New_empty_host_is_at data domain ipVersion :
  dondominio.New data domain "" ipVersion = dondominio.New data domain "@" ipVersion.
Proof. unfold dondominio.New. destruct (json.Unmarshal data); reflexivity. Qed.

(** [New] returns an error of the decoder exactly when decoding fails, and
    then returns it as it is: no validation error hides it, and no
    validation error looks like it. *)
Lemma New_decode_error_iff data domain host ipVersion e :
  (dondominio.New data domain host ipVersion = inr (Foreign e)
   <-> json.Unmarshal (T := dondominio.extraSettings) data = inr e)
  /\
  (aliyun.New data domain host ipVersion = inr (Foreign e)
   <-> json.Unmarshal (T := aliyun.extraSettings) data = inr e).
Proof.
  split.
  - unfold dondominio.New, dondominio.isValid.
    destruct (json.Unmarshal data) as [es | e'].
    + split; [|discriminate].
      repeat match goal with |- context [if ?b then _ else _] => destruct b end;
        discriminate.
    + split; congruence.
  - unfold aliyun.New, aliyun.isValid.
    destruct (json.Unmarshal data) as [es | e'].
    + split; [|discriminate].
      repeat match goal with |- context [if ?b then _ else _] => destruct b end;
        discriminate.
    + split; congruence.
Qed.

End Construction.

Section Aliyun.
Context {ext : Externals}.

Lemma findRecordID_listed records host :
  aliyun.findRecordID records host <> "" ->
  exists record,
    In record records /\
    strings_EqualFold (alidns.RR record) host = true /\
    alidns.RecordId record = aliyun.findRecordID records host.
Proof.
  induction records as [| r rest IH]; cbn [aliyun.findRecordID]; [now intros []|].
  destruct (strings_EqualFold (alidns.RR r) host) eqn:Hm.
  - intros _. exists r. split; [now left|]. now split.
  - intros Hne. destruct (IH Hne) as (record & Hin & Hmatch & Hid).
    exists record. split; [now right|]. now split.
Qed.

(** The calls of Aliyun's [Update]: nothing, or the listing for the
    configured domain and host, or that listing followed by one update;
    and the update names a record of the listing whose [RR] matches the
    host and whose identifier is not empty, for the configured host and
    the text of the requested address. *)
Lemma aliyun_call_discipline sdk (p : aliyun.Provider) ctx client ip :
  let listRequest :=
    {| alidns.ListScheme := "https"; alidns.DomainName := aliyun.domain p;
       alidns.RRKeyWord := aliyun.host p |} in
  let calls := fst (aliyun.Update sdk p ctx client ip) in
  calls = [] \/
  calls = [alidns.CallDescribe listRequest] \/
  exists cl resp record request,
    sdk (aliyun.region p) (aliyun.accessKeyID p) (aliyun.accessSecret p) = inl cl /\
    alidns.DescribeDomainRecords cl listRequest = inl resp /\
    calls = [alidns.CallDescribe listRequest; alidns.CallUpdate request] /\
    In record (alidns.DomainRecords resp) /\
    strings_EqualFold (alidns.RR record) (aliyun.host p) = true /\
    alidns.RecordId record <> "" /\
    request = {| alidns.UpdScheme := "https";
                 alidns.UpdValue := net.IP_String ip;
                 alidns.UpdType := if is_nil (net.To4 ip) then constants_AAAA
                                   else constants_A;
                 alidns.UpdRR := aliyun.host p;
                 alidns.UpdRecordId := alidns.RecordId record |}.
Proof.
  intros listRequest calls. subst calls. unfold aliyun.Update.
  destruct (sdk _ _ _) as [cl | e] eqn:Hsdk; cbn [fst]; [|now left].
  fold listRequest.
  destruct (alidns.DescribeDomainRecords cl listRequest) as [resp | e] eqn:Hlist;
    cbn [fst]; [|right; now left].
  destruct (String.eqb _ "") eqn:Hid; cbn [fst]; [right; now left|].
  right. right. apply String.eqb_neq in Hid.
  destruct (findRecordID_listed _ _ Hid) as (record & Hin & Hmatch & Hrec).
  exists cl, resp, record. eexists. split; [reflexivity|]. split; [exact Hlist|].
  split; [reflexivity|]. split; [exact Hin|]. split; [exact Hmatch|].
  split; [now rewrite Hrec|]. rewrite Hrec. reflexivity.
Qed.

End Aliyun.

Section Taxonomy.
Context {ext : Externals} {dd_response : json.Decoder dondominio.responseData}.

(** The errors of the two [Update] methods.  DonDominio returns an error
    of a library as it is, or one that wraps one of five sentinels with a
    detail; it returns none of the sentinels bare.  Aliyun returns an
    error of the SDK as it is, or the bare [ErrRecordNotFound]. *)
Lemma Update_error_kinds :
  (forall (p : dondominio.provider) ctx client ip newIP err,
     snd (dondominio.Update p ctx client ip) = Return newIP (Some err) ->
     match err with
     | Foreign _ => True
     | Errorf k _ =>
         In k [errors.ErrBadHTTPStatus; errors.ErrUnmarshalResponse;
               errors.ErrUnsuccessfulResponse; errors.ErrIPReceivedMalformed;
               errors.ErrIPReceivedMismatch]
     | Sentinel _ => False
     end)
  /\
  (forall sdk (p : aliyun.Provider) ctx client ip newIP err,
     snd (aliyun.Update sdk p ctx client ip) = Return newIP (Some err) ->
     match err with
     | Foreign _ => True
     | Sentinel k => k = errors.ErrRecordNotFound /\ newIP = []
     | Errorf _ _ => False
     end).
Proof.
  split.
  - intros p ctx client ip newIP err. unfold dondominio.Update.
    destruct ctx; cbn [http.NewRequestWithContext snd].
    { intros [= _ <-]. exact I. }
    destruct (client _) as [response | e]; cbn [snd].
    2:{ intros [= _ <-]. exact I. }
    destruct (negb _).
    { intros [= _ <-]. cbn. tauto. }
    destruct (json.Decode _) as [rd | e].
    2:{ intros [= _ <-]. cbn. tauto. }
    destruct (negb (dondominio.Success rd)).
    { intros [= _ <-]. cbn. tauto. }
    destruct (dondominio.GlueRecords _) as [| glue0 rest]; [discriminate|].
    cbv zeta. destruct (is_nil _).
    { intros [= _ <-]. cbn. tauto. }
    destruct (negb _); [|discriminate].
    intros [= _ <-]. cbn. tauto.
  - intros sdk p ctx client ip newIP err. unfold aliyun.Update.
    destruct (sdk _ _ _) as [cl | e]; cbn [snd].
    2:{ intros [= _ <-]. exact I. }
    destruct (alidns.DescribeDomainRecords cl _) as [resp | e]; cbn [snd].
    2:{ intros [= _ <-]. exact I. }
    destruct (String.eqb _ ""); cbn [snd].
    { intros [= <- <-]. split; reflexivity. }
    destruct (alidns.UpdateDomainRecord cl _); [discriminate|].
    intros [= _ <-]. exact I.
Qed.

End Taxonomy.

(** The further properties on concrete inputs. *)

Lemma dondominio_confirmed_address_shape_witness :
  length scenario.requested = 16 /\
  (length scenario.requested4 = 4 \/ length scenario.requested4 = 16) /\
  net.To4 scenario.requested = net.To4 scenario.requested4.
Proof.
  refine (@dondominio_confirmed_address_shape model.externals model.dondominio_decode
            scenario.dondominio_provider context.Live
            (scenario.answers scenario.body_same) scenario.requested4
            scenario.requested _).
  vm_compute. reflexivity.
Defined.

Lemma dondominio_echo_ipv4_confirmed_witness :
  snd (dondominio_Update_run scenario.dondominio_provider context.Live
         (scenario.answers scenario.body_same) scenario.requested4)
  = Return scenario.requested None.
Proof.
  refine (@dondominio_echo_ipv4_confirmed model.externals model.dondominio_decode
            scenario.dondominio_provider context.Live
            (scenario.answers scenario.body_same) scenario.requested4 _ _
            {| dondominio.Success := true; dondominio.ErrorCode := 0;
               dondominio.ErrorCodeMessage := "";
               dondominio.ResponseData :=
                 {| dondominio.GlueRecords :=
                      [ {| dondominio.IPv4 := "203.0.113.5"; dondominio.IPv6 := "" |} ] |} |}
            {| dondominio.IPv4 := "203.0.113.5"; dondominio.IPv6 := "" |} []
            eq_refl eq_refl eq_refl _ eq_refl eq_refl _ _).
  - vm_compute. reflexivity.
  - vm_compute. discriminate.
  - vm_compute. reflexivity.
Defined.

Lemma dondominio_request_wire_format_witness :
  exists request,
    fst (dondominio_Update_run scenario.dondominio_provider context.Live
           (scenario.answers scenario.body_same) scenario.requested) = [request] /\
    http.Method request = "POST" /\
    http.URL request = "https://simple-api.dondominio.net" /\
    http.Body request
    = "apipasswd=p&apiuser=u&domain=example.com&ipv4=203.0.113.5&name=n".
Proof.
  eexists. split; [reflexivity|].
  destruct (@dondominio_request_wire_format model.externals model.dondominio_decode
              scenario.dondominio_provider context.Live
              (scenario.answers scenario.body_same) scenario.requested
              _ (or_introl eq_refl)) as (Hm & Hu & _ & Hb).
  split; [exact Hm|]. split; [exact Hu|]. rewrite Hb. vm_compute. reflexivity.
Defined.

(** A password and a name that hold [&], [=] and a space. *)
Lemma dondominio_body_separators_witness :
  exists request,
    fst (dondominio_Update_run
           {| dondominio.domain := "example.com"; dondominio.host := "@";
              dondominio.ipVersion := ipversion.IP4or6; dondominio.username := "u";
              dondominio.password := "p&ipv4=198.51.100.1"; dondominio.name := "a b=c" |}
           context.Live (scenario.answers scenario.body_same) scenario.requested)
    = [request] /\
    http.Body request
    = "apipasswd=p%26ipv4%3D198.51.100.1&apiuser=u&domain=example.com&ipv4=203.0.113.5&name=a+b%3Dc"
    /\ count_char "&" (http.Body request) = 4
    /\ count_char "=" (http.Body request) = 5.
Proof.
  eexists. split; [reflexivity|]. split; [vm_compute; reflexivity|].
  exact (@dondominio_body_separators model.externals model.dondominio_decode
           _ context.Live (scenario.answers scenario.body_same) scenario.requested
           _ (or_introl eq_refl)).
Defined.

Lemma dondominio_ipv4_sent_dotted_witness :
  exists request,
    fst (dondominio_Update_run scenario.dondominio_provider context.Live
           (scenario.answers scenario.body_same) scenario.requested) = [request] /\
    http.Body request
    = "apipasswd=p&apiuser=u&domain=example.com&ipv4=203.0.113.5&name=n".
Proof.
  eexists. split; [reflexivity|].
  rewrite (@dondominio_ipv4_sent_dotted model.externals model.dondominio_decode
             scenario.dondominio_provider context.Live
             (scenario.answers scenario.body_same) scenario.requested
             _ (or_introl eq_refl)).
  - vm_compute. reflexivity.
  - vm_compute. discriminate.
Defined.

(** ** IPv6 addresses: from the text back to the bytes *)

Lemma append_cons c (s t : string) : String c s +:+ t = String c (s +:+ t).
Proof. reflexivity. Qed.

Lemma hexDigit_hexChar (d : N) : (d < 16)%N -> net.hexDigit (net.hexChar d) = Some d.
Proof.
  intros H.
  assert (E : In d [0;1;2;3;4;5;6;7;8;9;10;11;12;13;14;15]%N).
  { cbn. lia. }
  cbn in E. repeat destruct E as [<- | E]; try reflexivity. destruct E.
Qed.

Lemma appendHex_nibbles n : net.appendHex n = hex_text (nibbles n).
Proof.
  unfold net.appendHex, nibbles.
  destruct (4096 <=? n)%N; [reflexivity|].
  destruct (256 <=? n)%N; [reflexivity|].
  destruct (16 <=? n)%N; reflexivity.
Qed.

Lemma nibbles_value_ge ds : forall acc, (acc <= nibbles_value acc ds)%N.
Proof.
  induction ds as [| d r IH]; intros acc; cbn [nibbles_value]; [lia|].
  specialize (IH (acc * 16 + d)%N). lia.
Qed.

Lemma nibbles_spec n :
  (n < 65536)%N ->
  Forall (fun d => (d < 16)%N) (nibbles n) /\
  nibbles_value 0 (nibbles n) = n /\
  1 <= length (nibbles n) <= 4.
Proof.
  intros Hn. unfold nibbles.
  pose proof (N.mod_upper_bound n 16) as H0.
  pose proof (N.mod_upper_bound (n / 16) 16) as H1.
  pose proof (N.mod_upper_bound (n / 256) 16) as H2.
  assert (H3 : (n / 4096 < 16)%N) by (apply N.Div0.div_lt_upper_bound; lia).
  pose proof (N.div_mod n 16) as E0.
  pose proof (N.div_mod (n / 16) 16) as E1.
  pose proof (N.div_mod (n / 256) 16) as E2.
  assert (Q1 : (n / 16 / 16 = n / 256)%N) by (rewrite N.Div0.div_div; reflexivity).
  assert (Q2 : (n / 256 / 16 = n / 4096)%N) by (rewrite N.Div0.div_div; reflexivity).
  rewrite Q1 in E1. rewrite Q2 in E2.
  destruct (4096 <=? n)%N eqn:C3; [|destruct (256 <=? n)%N eqn:C2;
    [|destruct (16 <=? n)%N eqn:C1]];
    (split; [repeat constructor; lia|]); (split; [|cbn [length]; lia]);
    cbn [nibbles_value].
  - lia.
  - apply N.leb_gt in C3.
    assert ((n / 4096 = 0)%N) by (apply N.div_small; lia). lia.
  - apply N.leb_gt in C3, C2.
    assert ((n / 256 = 0)%N) by (apply N.div_small; lia). lia.
  - apply N.leb_gt in C3, C2, C1.
    assert ((n / 16 = 0)%N) by (apply N.div_small; lia). lia.
Qed.

Lemma parseHexGroup_stop rest acc off :
  stops rest -> net.parseHexGroup rest acc off = Some (acc, off, rest).
Proof. destruct rest as [| c r]; cbn; [reflexivity|]. now intros ->. Qed.

Lemma parseHexGroup_nibbles ds : forall acc off rest,
  Forall (fun d => (d < 16)%N) ds ->
  off + length ds <= 4 ->
  (nibbles_value acc ds <= 65535)%N ->
  stops rest ->
  net.parseHexGroup (hex_text ds +:+ rest) acc off
  = Some (nibbles_value acc ds, off + length ds, rest).
Proof.
  induction ds as [| d r IH]; intros acc off rest Hd Hlen Hval Hstop.
  - cbn [hex_text String.append nibbles_value length]. rewrite Nat.add_0_r.
    now apply parseHexGroup_stop.
  - inversion Hd as [| ? ? Hd0 Hdr]; subst.
    cbn [hex_text nibbles_value length] in *. rewrite append_cons.
    cbn [net.parseHexGroup]. rewrite (hexDigit_hexChar d Hd0).
    pose proof (nibbles_value_ge r (acc * 16 + d)%N) as Hge.
    cbv zeta.
    replace (Nat.ltb 3 off) with false by (symmetry; apply Nat.ltb_ge; lia).
    replace (65535 <? acc * 16 + d)%N with false by (symmetry; apply N.ltb_ge; lia).
    rewrite IH; [| assumption | lia | assumption | assumption].
    f_equal. f_equal. f_equal. lia.
Qed.

Lemma parseHexGroup_appendHex n rest :
  (n < 65536)%N -> stops rest ->
  exists k, net.parseHexGroup (net.appendHex n +:+ rest) 0%N 0 = Some (n, S k, rest).
Proof.
  intros Hn Hstop. destruct (nibbles_spec n Hn) as (Hd & Hv & Hl1 & Hl4).
  rewrite appendHex_nibbles.
  rewrite parseHexGroup_nibbles; [| assumption | cbn; lia | rewrite Hv; lia | assumption].
  rewrite Hv. destruct (length (nibbles n)) as [| k]; [lia|]. exists k. reflexivity.
Qed.

Lemma nibble_cases (d : N) :
  (d < 16)%N -> In d [0;1;2;3;4;5;6;7;8;9;10;11;12;13;14;15]%N.
Proof. cbn. lia. Qed.

Ltac each_nibble d H :=
  let E := fresh "E" in
  pose proof (nibble_cases d H) as E; cbn [In] in E;
  repeat (destruct E as [<- | E]); [.. | destruct E].

Lemma group_bytes_app a b : group_bytes (a ++ b) = group_bytes a ++ group_bytes b.
Proof. induction a as [| x a IH]; cbn; [reflexivity|]. now rewrite IH. Qed.

Lemma group_bytes_length gs : length (group_bytes gs) = 2 * length gs.
Proof. induction gs as [| x r IH]; cbn [group_bytes length]; lia. Qed.

Lemma group_bytes_zeros k : group_bytes (repeat 0%N k) = repeat Byte.x00 (2 * k).
Proof.
  induction k as [| k IH]; [reflexivity|].
  replace (2 * S k) with (S (S (2 * k))) by lia. cbn [repeat group_bytes].
  rewrite IH. reflexivity.
Qed.

(** One turn of the loop on a group followed by the end of the text. *)
Lemma loop_group_end f n ip ell :
  (n < 65536)%N -> length ip < 16 ->
  net.parseIPv6_loop (S f) (net.appendHex n +:+ "") ip ell
  = Some ("", ip ++ group_bytes [n], ell).
Proof.
  intros Hn Hip. cbn [net.parseIPv6_loop].
  replace (Nat.leb 16 (length ip)) with false by (symmetry; apply Nat.leb_gt; lia).
  destruct (parseHexGroup_appendHex n "" Hn I) as [k ->]. reflexivity.
Qed.

(** One turn of the loop on a group followed by a colon. *)
Lemma loop_group_colon f n rest1 ip ell :
  (n < 65536)%N -> length ip < 16 ->
  net.parseIPv6_loop (S f) (net.appendHex n +:+ String ":" rest1) ip ell
  = match rest1 with
    | EmptyString => None
    | String ":" rest2 =>
        if is_some ell then None
        else
          match rest2 with
          | EmptyString =>
              Some (EmptyString, ip ++ group_bytes [n], Some (length (ip ++ group_bytes [n])))
          | _ => net.parseIPv6_loop f rest2 (ip ++ group_bytes [n])
                   (Some (length (ip ++ group_bytes [n])))
          end
    | _ => net.parseIPv6_loop f rest1 (ip ++ group_bytes [n]) ell
    end.
Proof.
  intros Hn Hip. cbn [net.parseIPv6_loop].
  replace (Nat.leb 16 (length ip)) with false by (symmetry; apply Nat.leb_gt; lia).
  destruct (parseHexGroup_appendHex n (String ":" rest1) Hn eq_refl) as [k ->].
  reflexivity.
Qed.

(** The text of a group starts with a hex digit. *)
Lemma appendHex_head n rest :
  (n < 65536)%N ->
  exists d r, (d < 16)%N /\ net.appendHex n +:+ rest = String (net.hexChar d) r.
Proof.
  intros Hn. destruct (nibbles_spec n Hn) as (Hd & _ & Hl & _).
  rewrite appendHex_nibbles. destruct (nibbles n) as [| d ds]; [cbn in Hl; lia|].
  inversion Hd; subst. exists d, (hex_text ds +:+ rest). split; [assumption|reflexivity].
Qed.

Lemma loop_group_next f n m rest ip ell :
  (n < 65536)%N -> (m < 65536)%N -> length ip < 16 ->
  net.parseIPv6_loop (S f) (net.appendHex n +:+ String ":" (net.appendHex m +:+ rest)) ip ell
  = net.parseIPv6_loop f (net.appendHex m +:+ rest) (ip ++ group_bytes [n]) ell.
Proof.
  intros Hn Hm Hip. rewrite loop_group_colon by assumption.
  destruct (appendHex_head m rest Hm) as (d & r & Hd & ->).
  each_nibble d Hd; reflexivity.
Qed.

(** Reading groups up to the end of the text. *)
Lemma loop_groups_end gs : forall x f ip ell,
  Forall (fun n => (n < 65536)%N) (x :: gs) ->
  length ip + 2 * S (length gs) <= 16 ->
  net.parseIPv6_loop (S (length gs) + f) (groups_then (x :: gs) "") ip ell
  = Some ("", ip ++ group_bytes (x :: gs), ell).
Proof.
  induction gs as [| y r IH]; intros x f ip ell Hall Hlen.
  - inversion Hall; subst. cbn [length] in *. apply loop_group_end; [assumption|lia].
  - inversion Hall as [| ? ? Hx Hr]; subst. inversion Hr as [| ? ? Hy _]; subst.
    cbn [length] in *.
    change (groups_then (x :: y :: r) "")
      with (net.appendHex x +:+ String ":" (groups_then (y :: r) "")).
    assert (E : exists rest, groups_then (y :: r) "" = net.appendHex y +:+ rest).
    { destruct r; eexists; reflexivity. }
    destruct E as [rest E]. rewrite E.
    cbn [Nat.add]. rewrite loop_group_next by (assumption || lia).
    rewrite <- E. rewrite (IH y f) by (assumption || (rewrite length_app; cbn; lia)).
    rewrite <- app_assoc. reflexivity.
Qed.

(** Reading groups up to a double colon. *)
Lemma loop_groups_ellipsis gs : forall x f ip rest2,
  Forall (fun n => (n < 65536)%N) (x :: gs) ->
  length ip + 2 * S (length gs) <= 16 ->
  net.parseIPv6_loop (S (length gs) + f)
    (groups_then (x :: gs) (String ":" (String ":" rest2))) ip None
  = match rest2 with
    | EmptyString =>
        Some ("", ip ++ group_bytes (x :: gs), Some (length ip + 2 * S (length gs)))
    | _ => net.parseIPv6_loop f rest2 (ip ++ group_bytes (x :: gs))
             (Some (length ip + 2 * S (length gs)))
    end.
Proof.
  induction gs as [| y r IH]; intros x f ip rest2 Hall Hlen.
  - inversion Hall; subst. cbn [length] in *.
    cbn [groups_then Nat.add]. rewrite loop_group_colon by (assumption || lia).
    cbn [is_some]. rewrite length_app. cbn [group_bytes length].
    replace (length ip + 2 * 1) with (length ip + 2) by lia. reflexivity.
  - inversion Hall as [| ? ? Hx Hr]; subst. inversion Hr as [| ? ? Hy _]; subst.
    cbn [length] in *.
    change (groups_then (x :: y :: r) (String ":" (String ":" rest2)))
      with (net.appendHex x +:+ String ":" (groups_then (y :: r) (String ":" (String ":" rest2)))).
    assert (E : exists rest, groups_then (y :: r) (String ":" (String ":" rest2))
                             = net.appendHex y +:+ rest).
    { destruct r; eexists; reflexivity. }
    destruct E as [rest E]. rewrite E.
    cbn [Nat.add]. rewrite loop_group_next by (assumption || lia).
    rewrite <- E. rewrite (IH y f) by (assumption || (rewrite length_app; cbn; lia)).
    rewrite <- app_assoc, length_app. cbn [group_bytes length app].
    replace (length ip + 2 + 2 * S (length r)) with (length ip + 2 * S (S (length r))) by lia.
    reflexivity.
Qed.

(** *** The groups of sixteen bytes *)

Lemma to_N_lt (b : byte) : (Byte.to_N b < 256)%N.
Proof. destruct b; vm_compute; reflexivity. Qed.

Lemma byte_of_to_N (b : byte) : byte_of_N (Byte.to_N b) = b.
Proof. destruct b; reflexivity. Qed.

Lemma group_pair_bytes (hi lo : byte) :
  group_bytes [(Byte.to_N hi * 256 + Byte.to_N lo)%N] = [hi; lo].
Proof.
  pose proof (to_N_lt hi) as Hh. pose proof (to_N_lt lo) as Hl.
  cbn [group_bytes]. f_equal; [|f_equal].
  - rewrite N.shiftr_div_pow2. change (2 ^ 8)%N with 256%N.
    replace ((Byte.to_N hi * 256 + Byte.to_N lo) / 256)%N with (Byte.to_N hi).
    + apply byte_of_to_N.
    + symmetry. rewrite N.add_comm, N.div_add by lia. rewrite N.div_small by lia. lia.
  - unfold byte_of_N.
    replace ((Byte.to_N hi * 256 + Byte.to_N lo) mod 256)%N with (Byte.to_N lo mod 256)%N.
    + apply (byte_of_to_N lo).
    + rewrite N.add_comm, N.Div0.mod_add. reflexivity.
Qed.

Lemma groups_spec k : forall ip,
  length ip = 2 * k ->
  group_bytes (net.groups ip) = ip /\
  length (net.groups ip) = k /\
  Forall (fun n => (n < 65536)%N) (net.groups ip).
Proof.
  induction k as [| k IH]; intros ip Hl.
  - destruct ip; [|discriminate]. repeat split. constructor.
  - destruct ip as [| hi [| lo r]]; try (cbn in Hl; lia).
    destruct (IH r) as (Hb & Hlen & Hall); [cbn in Hl; lia|].
    cbn [net.groups]. repeat split.
    + change (group_bytes ((Byte.to_N hi * 256 + Byte.to_N lo)%N :: net.groups r))
        with (group_bytes [(Byte.to_N hi * 256 + Byte.to_N lo)%N] ++ group_bytes (net.groups r)).
      rewrite group_pair_bytes, Hb. reflexivity.
    + cbn [length]. now rewrite Hlen.
    + constructor; [|assumption].
      pose proof (to_N_lt hi). pose proof (to_N_lt lo). lia.
Qed.

Lemma appendTo6_printed (g : list N) :
  length g = 8 ->
  (let '(zs, ze) := net.longestZeroRun g 0 (255, 255) in net.appendTo6 g 0 zs ze)
  = printed g /\ run_ok g.
Proof.
  intros Hl.
  destruct g as [| g0 [| g1 [| g2 [| g3 [| g4 [| g5 [| g6 [| g7 [| ? ?]]]]]]]]];
    try discriminate.
  unfold printed, run_ok.
  destruct g0, g1, g2, g3, g4, g5, g6, g7;
    lazy -[net.appendHex String.append]; repeat split.
Qed.

Lemma index_percent_hex_text ds r :
  Forall (fun d => (d < 16)%N) ds ->
  net.index_percent r = None -> net.index_percent (hex_text ds +:+ r) = None.
Proof.
  intros Hd Hr. induction Hd as [| d ds Hd0 _ IH]; [exact Hr|].
  cbn [hex_text]. rewrite append_cons. cbn [net.index_percent]. rewrite IH.
  each_nibble d Hd0; reflexivity.
Qed.

Lemma index_percent_appendHex n r :
  (n < 65536)%N ->
  net.index_percent r = None -> net.index_percent (net.appendHex n +:+ r) = None.
Proof.
  intros Hn Hr. rewrite appendHex_nibbles.
  apply index_percent_hex_text; [apply (nibbles_spec n Hn) | exact Hr].
Qed.

Lemma index_percent_colon r :
  net.index_percent r = None -> net.index_percent (String ":" r) = None.
Proof. intros Hr. cbn. now rewrite Hr. Qed.

Lemma index_percent_groups_then gs : forall tail,
  Forall (fun n => (n < 65536)%N) gs ->
  net.index_percent tail = None -> net.index_percent (groups_then gs tail) = None.
Proof.
  induction gs as [| x r IH]; intros tail Hall Ht; [exact Ht|].
  inversion Hall; subst. destruct r as [| y r'].
  - cbn [groups_then]. now apply index_percent_appendHex.
  - change (groups_then (x :: y :: r') tail)
      with (net.appendHex x +:+ String ":" (groups_then (y :: r') tail)).
    apply index_percent_appendHex; [assumption|].
    apply index_percent_colon. now apply IH.
Qed.

Lemma scan_hex_text whole ds r :
  Forall (fun d => (d < 16)%N) ds ->
  net.ParseAddr_scan whole (hex_text ds +:+ String ":" r) = net.parseIPv6 whole.
Proof.
  intros Hd. induction Hd as [| d ds Hd0 _ IH]; [reflexivity|].
  cbn [hex_text]. rewrite append_cons. cbn [net.ParseAddr_scan]. rewrite IH.
  each_nibble d Hd0; reflexivity.
Qed.

Lemma scan_appendHex whole n r :
  (n < 65536)%N ->
  net.ParseAddr_scan whole (net.appendHex n +:+ String ":" r) = net.parseIPv6 whole.
Proof.
  intros Hn. rewrite appendHex_nibbles. apply scan_hex_text, (nibbles_spec n Hn).
Qed.

Lemma parseIPv6_hex d r :
  (d < 16)%N ->
  net.index_percent (String (net.hexChar d) r) = None ->
  net.parseIPv6 (String (net.hexChar d) r)
  = finish (net.parseIPv6_loop 8 (String (net.hexChar d) r) [] None).
Proof.
  intros Hd Hp. unfold net.parseIPv6, finish. rewrite Hp. clear Hp.
  each_nibble d Hd;
    match goal with
    | |- context [net.hexChar ?k] =>
        let c := eval vm_compute in (net.hexChar k) in change (net.hexChar k) with c
    end;
    lazy beta iota zeta; reflexivity.
Qed.

Lemma parseIPv6_lead c r :
  net.index_percent (String c r) = None ->
  net.parseIPv6 (String ":" (String ":" (String c r)))
  = finish (net.parseIPv6_loop 8 (String c r) [] (Some 0)).
Proof.
  intros Hp.
  assert (Hp' : net.index_percent (String ":" (String ":" (String c r))) = None)
    by now do 2 apply index_percent_colon.
  unfold net.parseIPv6, finish. rewrite Hp'. lazy beta iota zeta. reflexivity.
Qed.

(** A text of groups that starts with a group and a colon is parsed as an
    IPv6 address by the loop. *)
Lemma ParseAddr_groups n rest :
  (n < 65536)%N ->
  net.index_percent rest = None ->
  let text := net.appendHex n +:+ String ":" rest in
  net.ParseAddr_scan text text = finish (net.parseIPv6_loop 8 text [] None).
Proof.
  intros Hn Hp text.
  assert (Hpt : net.index_percent text = None)
    by now apply index_percent_appendHex, index_percent_colon.
  unfold text at 2. rewrite scan_appendHex by assumption.
  destruct (appendHex_head n (String ":" rest) Hn) as (d & r & Hd & E).
  fold text in E. rewrite E in *. now apply parseIPv6_hex.
Qed.

Lemma split_at_length {A} (a b : list A) n :
  n = length a -> firstn n (a ++ b) = a /\ skipn n (a ++ b) = b.
Proof.
  intros ->. induction a as [| x a [IH1 IH2]]; [split; reflexivity|].
  cbn [length app firstn skipn]. rewrite IH1. split; [reflexivity | exact IH2].
Qed.

Lemma finish_whole ip :
  length ip = 16 -> finish (Some ("", ip, None)) = Some (ip, "").
Proof. intros H. unfold finish. rewrite H. reflexivity. Qed.

Lemma finish_ellipsis a b :
  length a + length b < 16 ->
  finish (Some ("", a ++ b, Some (length a)))
  = Some (a ++ repeat Byte.x00 (16 - (length a + length b)) ++ b, "").
Proof.
  intros H. unfold finish. cbn [String.eqb negb]. rewrite length_app.
  replace (Nat.ltb (length a + length b) 16) with true
    by (symmetry; apply Nat.ltb_lt; lia).
  destruct (split_at_length a b (length a) eq_refl) as [-> ->]. reflexivity.
Qed.

(** The text of groups with a run of zero groups elided is parsed back to
    the bytes of all the groups. *)
Lemma ParseAddr_elided pre post k :
  Forall (fun n => (n < 65536)%N) pre ->
  Forall (fun n => (n < 65536)%N) post ->
  2 <= k -> length pre + k + length post = 8 ->
  let text := groups_then pre (String ":" (String ":" (groups_then post ""))) in
  net.ParseAddr_scan text text
  = Some (group_bytes (pre ++ repeat 0%N k ++ post), "").
Proof.
  intros Hpre Hpost Hk Hlen text.
  rewrite !group_bytes_app, group_bytes_zeros.
  assert (Hp0 : net.index_percent (groups_then post "") = None)
    by now apply index_percent_groups_then.
  destruct pre as [| x r].
  - cbn [groups_then] in text. cbn [group_bytes app length] in *.
    destruct post as [| y r'].
    + cbn [length] in Hlen. assert (k = 8) by lia. subst k. reflexivity.
    + inversion Hpost as [| ? ? Hy _]; subst.
      destruct (appendHex_head y (match r' with [] => "" | _ :: _ =>
                  String ":" (groups_then r' "") end) Hy) as (d & t & Hd & E).
      assert (E' : groups_then (y :: r') "" = String (net.hexChar d) t).
      { rewrite <- E. destruct r'; reflexivity. }
      unfold text. cbn [net.ParseAddr_scan Ascii.eqb Bool.eqb].
      rewrite E'. rewrite parseIPv6_lead by (rewrite <- E'; assumption).
      rewrite <- E'. cbn [length] in Hlen.
      replace 8 with (S (length r') + (8 - S (length r'))) at 1 by lia.
      rewrite loop_groups_end by (assumption || (cbn [length]; lia)).
      cbn [app].
      pose proof (finish_ellipsis [] (group_bytes (y :: r'))) as F.
      cbn [app length] in F. rewrite F by (rewrite group_bytes_length; cbn [length]; lia).
      rewrite group_bytes_length. cbn [length].
      replace (16 - (0 + 2 * S (length r'))) with (2 * k) by lia. reflexivity.
  - inversion Hpre as [| ? ? Hx _]; subst. cbn [length] in Hlen.
    assert (E : exists rest, text = net.appendHex x +:+ String ":" rest /\
                             net.index_percent rest = None).
    { unfold text. destruct r as [| x' r0].
      - eexists. split; [reflexivity|]. now apply index_percent_colon.
      - exists (groups_then (x' :: r0) (String ":" (String ":" (groups_then post "")))).
        split; [reflexivity|]. inversion Hpre; subst.
        apply index_percent_groups_then; [assumption|].
        now do 2 apply index_percent_colon. }
    destruct E as (rest & E & Hrest).
    rewrite E. rewrite (ParseAddr_groups x rest Hx Hrest). rewrite <- E. unfold text.
    replace 8 with (S (length r) + (8 - S (length r))) at 1 by lia.
    rewrite loop_groups_ellipsis by (assumption || (cbn [length]; lia)).
    cbn [app length Nat.add].
    destruct post as [| y r'].
    + cbn [groups_then]. change (group_bytes []) with (@nil byte). rewrite app_nil_r.
      pose proof (finish_ellipsis (group_bytes (x :: r)) []) as F.
      rewrite app_nil_r, group_bytes_length in F. cbn [length] in F.
      rewrite F by lia.
      cbn [length] in Hlen.
      replace (16 - (2 * S (length r) + 0)) with (2 * k) by lia.
      rewrite app_nil_r. reflexivity.
    + inversion Hpost as [| ? ? Hy _]; subst.
      destruct (appendHex_head y (match r' with [] => "" | _ :: _ =>
                  String ":" (groups_then r' "") end) Hy) as (d & t & Hd & Ey).
      assert (E' : groups_then (y :: r') "" = String (net.hexChar d) t).
      { rewrite <- Ey. destruct r'; reflexivity. }
      rewrite E'. rewrite <- E'. cbn [length] in Hlen.
      replace (8 - S (length r)) with (S (length r') + (8 - S (length r) - S (length r')))
        by lia.
      rewrite loop_groups_end
        by (assumption || (rewrite group_bytes_length; cbn [length]; lia)).
      pose proof (finish_ellipsis (group_bytes (x :: r)) (group_bytes (y :: r'))) as F.
      rewrite !group_bytes_length in F. cbn [length] in F.
      rewrite F by lia.
      replace (16 - (2 * S (length r) + 2 * S (length r'))) with (2 * k) by lia.
      reflexivity.
Qed.

(** The text of eight groups without a run of zero groups is parsed back
    to their bytes. *)
Lemma ParseAddr_plain g :
  Forall (fun n => (n < 65536)%N) g -> length g = 8 ->
  net.ParseAddr_scan (groups_then g "") (groups_then g "") = Some (group_bytes g, "").
Proof.
  intros Hall Hlen.
  destruct g as [| x [| y r]]; try discriminate.
  inversion Hall as [| ? ? Hx Hr]; subst.
  change (groups_then (x :: y :: r) "")
    with (net.appendHex x +:+ String ":" (groups_then (y :: r) "")).
  rewrite (ParseAddr_groups x _ Hx) by now apply index_percent_groups_then.
  change (net.appendHex x +:+ String ":" (groups_then (y :: r) ""))
    with (groups_then (x :: y :: r) "").
  cbn [length] in Hlen.
  replace 8 with (S (length (y :: r)) + 0) by (cbn [length]; lia).
  rewrite loop_groups_end by (assumption || (cbn [length]; lia)).
  cbn [app]. apply finish_whole. rewrite group_bytes_length. cbn [length]. lia.
Qed.

(** Printing a 16-byte address that [To4] refuses and parsing the text
    gives the address back. *)
Lemma ParseIP_IP_String_v6 (ip : net.IP) :
  length ip = 16 -> net.To4 ip = [] -> net.ParseIP (net.IP_String ip) = ip.
Proof.
  intros Hl H4. unfold net.IP_String. rewrite Hl, H4. cbn [Nat.eqb negb andb length
    net.IPv4len net.IPv6len].
  destruct (groups_spec 8 ip Hl) as (Hb & Hlen & Hall).
  cbv zeta. destruct (appendTo6_printed (net.groups ip) Hlen) as [-> Hok].
  unfold printed, run_ok in *.
  destruct (net.longestZeroRun (net.groups ip) 0 (255, 255)) as [zs ze].
  unfold net.ParseIP. destruct (Nat.eqb zs 255).
  - rewrite (ParseAddr_plain _ Hall Hlen). cbn [String.eqb]. exact Hb.
  - destruct Hok as (H1 & H2 & Hg).
    apply Nat.leb_le in H1, H2.
    set (pre := firstn zs (net.groups ip)) in *.
    set (post := skipn ze (net.groups ip)) in *.
    assert (Hpre : Forall (fun n => (n < 65536)%N) pre).
    { rewrite Hg in Hall. now apply Forall_app in Hall as [? _]. }
    assert (Hpost : Forall (fun n => (n < 65536)%N) post).
    { rewrite Hg in Hall. apply Forall_app in Hall as [_ Hall].
      now apply Forall_app in Hall as [_ ?]. }
    assert (Hsum : length pre + (ze - zs) + length post = 8).
    { pose proof (f_equal (@length N) Hg) as HL.
      rewrite !length_app, repeat_length, Hlen in HL. lia. }
    rewrite (ParseAddr_elided pre post (ze - zs) Hpre Hpost) by lia.
    cbn [String.eqb]. rewrite <- Hg. exact Hb.
Qed.

(** Printing a 4-byte or 16-byte address and parsing the text gives an
    address equal to it. *)
Lemma Equal_ParseIP_IP_String (ip : net.IP) :
  length ip = 4 \/ length ip = 16 ->
  net.Equal ip (net.ParseIP (net.IP_String ip)) = true.
Proof.
  intros Hl. destruct (net.To4 ip) as [| b r] eqn:H4.
  - assert (H16 : length ip = 16).
    { destruct Hl as [Hl | Hl]; [|exact Hl].
      unfold net.To4 in H4. rewrite Hl in H4. cbn in H4. subst ip. discriminate. }
    rewrite (ParseIP_IP_String_v6 ip H16 H4).
    unfold net.Equal. rewrite Nat.eqb_refl. apply bytesEqual_refl.
  - assert (Hn : net.To4 ip <> []) by (rewrite H4; discriminate).
    rewrite (ParseIP_IP_String_v4 ip Hn). apply (Equal_mapped ip Hn).
Qed.

Section Echo.
Context {ext : Externals} {dd_response : json.Decoder dondominio.responseData}.

(** When the provider's response echoes, in its [ipv6] field, the text
    [ip.String()] that the request carried for a 16-byte address that
    [To4] refuses, [Update] confirms: it returns the address and a nil
    error. *)
Lemma dondominio_echo_ipv6_confirmed (p : dondominio.provider) ctx client ip request
    response rd glue0 rest :
  fst (dondominio.Update p ctx client ip) = [request] ->
  client request = inl response ->
  http.StatusCode response = http.StatusOK ->
  json.Decode (http.RespBody response) = inl rd ->
  dondominio.Success rd = true ->
  dondominio.GlueRecords (dondominio.ResponseData rd) = glue0 :: rest ->
  length ip = 16 ->
  net.To4 ip = [] ->
  dondominio.IPv6 glue0 = net.IP_String ip ->
  snd (dondominio.Update p ctx client ip) = Return ip None.
Proof.
  intros Ht Hc Hs Hd Hok Hg Hl H4 Hecho.
  rewrite (dondominio_decoded _ _ _ _ _ _ _ Ht Hc Hs Hd), Hok, Hg.
  cbn [negb]. rewrite H4. cbn [is_nil]. cbv zeta.
  rewrite Hecho, (ParseIP_IP_String_v6 ip Hl H4).
  assert (Hnil : is_nil ip = false) by (destruct ip; [discriminate | reflexivity]).
  rewrite Hnil. unfold net.Equal. rewrite Nat.eqb_refl, bytesEqual_refl. reflexivity.
Qed.

(** The value of every update call Aliyun's [Update] makes for a 4-byte or
    16-byte address is a text that [net.ParseIP] reads as an address equal
    to the requested one, and the record type of the call is the one of
    the text: [AAAA] exactly when the text is not in dotted form. *)
Lemma aliyun_sent_value_denotes_address sdk (p : aliyun.Provider) ctx client ip request :
  length ip = 4 \/ length ip = 16 ->
  In (alidns.CallUpdate request) (fst (aliyun.Update sdk p ctx client ip)) ->
  net.Equal ip (net.ParseIP (alidns.UpdValue request)) = true /\
  alidns.UpdType request
  = (if is_nil (net.To4 (net.ParseIP (alidns.UpdValue request)))
     then constants_AAAA else constants_A).
Proof.
  intros Hl Hin.
  assert (Hv : alidns.UpdValue request = net.IP_String ip /\
               alidns.UpdType request
               = if is_nil (net.To4 ip) then constants_AAAA else constants_A).
  { unfold aliyun.Update in Hin.
    destruct (sdk _ _ _) as [cl | e]; [|destruct Hin].
    destruct (alidns.DescribeDomainRecords cl _) as [resp | e].
    2:{ destruct Hin as [H | []]. discriminate. }
    destruct (String.eqb _ ""); cbv zeta in Hin; cbn [fst In] in Hin.
    - destruct Hin as [H | []]. discriminate.
    - destruct Hin as [H | [H | []]]; [discriminate|]. injection H as <-.
      split; reflexivity. }
  destruct Hv as [Hv Ht]. rewrite Hv, Ht.
  pose proof (Equal_ParseIP_IP_String ip Hl) as He.
  split; [exact He|]. now rewrite (Equal_To4 _ _ He).
Qed.

End Echo.

Section Accessors.
Context {dd_settings : json.Unmarshaler dondominio.extraSettings}.
Context {ali_settings : json.Unmarshaler aliyun.extraSettings}.

(** The accessors of a provider that [New] returns read the arguments of
    [New]: the domain and the IP version as given, and the host as given
    for Aliyun; DonDominio's host is [@] whatever was given.  Neither
    provider is proxied. *)
Lemma accessors_read_the_arguments :
  (forall data domain host ipVersion p,
     dondominio.New data domain host ipVersion = inl p ->
     dondominio.Domain p = domain /\ dondominio.Host p = "@" /\
     dondominio.IPVersion p = ipVersion /\ dondominio.Proxied p = false /\
     (host = "" \/ host = "@"))
  /\
  (forall data domain host ipVersion p,
     aliyun.New data domain host ipVersion = inl p ->
     aliyun.Domain p = domain /\ aliyun.Host p = host /\
     aliyun.IPVersion p = ipVersion /\ aliyun.Proxied p = false).
Proof.
  split.
  - intros data domain host ipVersion p.
    destruct (json.Unmarshal (T := dondominio.extraSettings) data) as [es | e] eqn:Hd.
    2:{ unfold dondominio.New. rewrite Hd. discriminate. }
    rewrite (dondominio_New_cases _ _ _ _ _ Hd).
    destruct (String.eqb (dondominio.Username es) ""); [discriminate|].
    destruct (String.eqb (dondominio.Password es) ""); [discriminate|].
    destruct (String.eqb (dondominio.Name es) ""); [discriminate|].
    destruct (String.eqb host "" || String.eqb host "@") eqn:Hh; [|discriminate].
    intros [= <-]. repeat split.
    apply orb_prop in Hh as [Hh | Hh]; apply String.eqb_eq in Hh; [now left | now right].
  - intros data domain host ipVersion p.
    destruct (json.Unmarshal (T := aliyun.extraSettings) data) as [es | e] eqn:Hd.
    2:{ unfold aliyun.New. rewrite Hd. discriminate. }
    rewrite (aliyun_New_cases _ _ _ _ _ Hd).
    destruct (String.eqb (aliyun.AccessKeyID es) ""); [discriminate|].
    destruct (String.eqb (aliyun.AccessSecret es) ""); [discriminate|].
    intros [= <-]. repeat split.
Qed.

End Accessors.

Lemma dondominio_echo_ipv6_confirmed_witness :
  snd (dondominio_Update_run scenario.dondominio_provider context.Live
         (scenario.answers scenario.body_same6) scenario.requested6)
  = Return scenario.requested6 None.
Proof.
  refine (@dondominio_echo_ipv6_confirmed model.externals model.dondominio_decode
            scenario.dondominio_provider context.Live
            (scenario.answers scenario.body_same6) scenario.requested6 _ _
            {| dondominio.Success := true; dondominio.ErrorCode := 0;
               dondominio.ErrorCodeMessage := "";
               dondominio.ResponseData :=
                 {| dondominio.GlueRecords :=
                      [ {| dondominio.IPv4 := ""; dondominio.IPv6 := "2001:db8::5" |} ] |} |}
            {| dondominio.IPv4 := ""; dondominio.IPv6 := "2001:db8::5" |} []
            eq_refl eq_refl eq_refl _ eq_refl eq_refl _ _ _).
  - vm_compute. reflexivity.
  - vm_compute. reflexivity.
  - vm_compute. reflexivity.
  - vm_compute. reflexivity.
Defined.

Lemma aliyun_sent_value_denotes_address_witness :
  exists request,
    fst (aliyun_Update_run (scenario.sdk scenario.listing scenario.update_ok)
           scenario.aliyun_provider context.Live (scenario.answers "")
           scenario.requested6)
    = [alidns.CallDescribe
         {| alidns.ListScheme := "https"; alidns.DomainName := "example.com";
            alidns.RRKeyWord := "www" |};
       alidns.CallUpdate request] /\
    alidns.UpdValue request = "2001:db8::5" /\
    net.Equal scenario.requested6 (net.ParseIP (alidns.UpdValue request)) = true /\
    alidns.UpdType request = "AAAA".
Proof.
  eexists. split; [reflexivity|]. split; [reflexivity|].
  destruct (@aliyun_sent_value_denotes_address model.externals
              (scenario.sdk scenario.listing scenario.update_ok)
              scenario.aliyun_provider context.Live (scenario.answers "")
              scenario.requested6 _ (or_intror eq_refl)
              (or_intror (or_introl eq_refl))) as [He Ht].
  split; [exact He|]. rewrite Ht. vm_compute. reflexivity.
Defined.
